(* Shallow embedding of the human-in-the-loop warehouse query workflow of
   scripts/chatbot: the pending-query store and the warehouse tools of
   warehouse_tools.py, and the tool dispatch node and turn post-processing
   of chatbot.py. *)

From stdpp Require Import base gmap strings list pretty.
From Stdlib Require Import QArith.

Local Open Scope string_scope.
Local Set Warnings "-register-all".

(* ------------------------------------------------------------------ *)
(* Python values used by the code                                      *)
(* ------------------------------------------------------------------ *)

(** JSON-compatible Python values, as produced by [json.loads] and consumed
    by [json.dumps]. A [dict] is kept as its list of items in insertion
    order; numbers are kept as rationals (a Python float is a dyadic
    rational). *)
Inductive json : Type :=
| JNull
| JBool (b : bool)
| JNum (q : Q)
| JStr (s : string)
| JArr (l : list json)
| JObj (items : list (string * json)).

(** [d.get(k)] on a dict: the value stored under [k]. *)
Fixpoint dict_get (d : list (string * json)) (k : string) : option json :=
  match d with
  | [] => None
  | (k', v) :: d' => if String.eqb k k' then Some v else dict_get d' k
  end.

(** The keys of a dict, in order ([list(d)]). *)
Definition json_keys (v : json) : list string :=
  match v with JObj d => map fst d | _ => [] end.

(** A Python computation that returns a value or raises an exception
    (carrying [str(e)]). *)
Inductive exc (A : Type) : Type :=
| Ok (a : A)
| Raise (msg : string).
Arguments Ok {A} a.
Arguments Raise {A} msg.

(** Truthiness of an [Optional[str]] argument: [None] and [""] are false. *)
Definition truthy (o : option string) : option string :=
  match o with
  | Some s => if String.eqb s "" then None else Some s
  | None => None
  end.

(* ------------------------------------------------------------------ *)
(* str methods used by the query builders                              *)
(* ------------------------------------------------------------------ *)

(** Characters for which [str.isspace()] holds (ASCII range). *)
Definition is_space (c : Ascii.ascii) : bool :=
  let n := Ascii.nat_of_ascii c in
  (Nat.leb 9 n && Nat.leb n 13) || (Nat.leb 28 n && Nat.leb n 32).

Fixpoint lstrip (s : string) : string :=
  match s with
  | EmptyString => EmptyString
  | String c s' => if is_space c then lstrip s' else s
  end.

Fixpoint rev_str (s : string) (acc : string) : string :=
  match s with
  | EmptyString => acc
  | String c s' => rev_str s' (String c acc)
  end.

(** [s.strip()] *)
Definition strip (s : string) : string :=
  rev_str (lstrip (rev_str (lstrip s) EmptyString)) EmptyString.

(** [s.split()]: maximal runs of non-space characters. [cur] is the
    current word, reversed. *)
Fixpoint split_go (s : string) (cur : string) : list string :=
  match s with
  | EmptyString =>
      match cur with EmptyString => [] | _ => [rev_str cur EmptyString] end
  | String c s' =>
      if is_space c then
        match cur with
        | EmptyString => split_go s' EmptyString
        | _ => rev_str cur EmptyString :: split_go s' EmptyString
        end
      else split_go s' (String c cur)
  end.

Definition split (s : string) : list string := split_go s EmptyString.

(** [sep.join(l)] *)
Fixpoint join (sep : string) (l : list string) : string :=
  match l with
  | [] => ""
  | [x] => x
  | x :: l' => x ++ sep ++ join sep l'
  end.

Definition upper_char (c : Ascii.ascii) : Ascii.ascii :=
  let n := Ascii.nat_of_ascii c in
  if Nat.leb 97 n && Nat.leb n 122 then Ascii.ascii_of_nat (n - 32)%nat else c.

(** [s.upper()] (ASCII letters). *)
Fixpoint upper (s : string) : string :=
  match s with
  | EmptyString => EmptyString
  | String c s' => String (upper_char c) (upper s')
  end.

(** [s[:n]] *)
Definition slice_to (n : nat) (s : string) : string := String.substring 0 n s.

(** [str(n)] for a Python int. *)
Definition str_int (z : Z) : string := pretty z.

(* ------------------------------------------------------------------ *)
(* warehouse_tools.py: the pending-query store                         *)
(* ------------------------------------------------------------------ *)

Module WarehouseTools.

(** [@dataclass(frozen=True) class PendingQuery] *)
Record PendingQuery : Type := {
  query_id : string;
  tool_name : string;
  sql : string;
  created_at : Q
}.

(** What the warehouse cursor produces for a statement:
    rows serialised by [df.to_json(orient="records")], no rows, or an
    exception raised by the connection or the cursor. *)
Inductive exec_outcome : Type :=
| Rows (records_json : string)
| NoRows
| Failed (msg : string).

(** The module-level state: [_PENDING_QUERIES], the number of uuids drawn
    so far, and the records [execute_pending_query] popped and sent to the
    warehouse (connection, then [cursor.execute]), in order. *)
Record state : Type := {
  pending : gmap string PendingQuery;
  next_uuid : nat;
  executed : list PendingQuery
}.

Definition initial_state : state :=
  {| pending := ∅; next_uuid := 0; executed := [] |}.

Section Store.

(** [str(uuid.uuid4())] for the n-th draw, and [time.time()] at it. *)
Variable uuid4 : nat -> string.
Variable time_time : nat -> Q.
(** The warehouse: what running a statement yields. *)
Variable snowflake : string -> exec_outcome.

(** [_register_pending_query] *)
Definition _register_pending_query (tool_name0 sql0 : string) (s : state)
    : PendingQuery * state :=
  let qid := uuid4 (next_uuid s) in
  let pq := {| query_id := qid; tool_name := tool_name0; sql := strip sql0;
               created_at := time_time (next_uuid s) |} in
  (pq, {| pending := <[qid := pq]> (pending s);
          next_uuid := S (next_uuid s);
          executed := executed s |}).

(** [get_pending_query] *)
Definition get_pending_query (qid : string) (s : state) : option PendingQuery :=
  pending s !! qid.

(** [_PENDING_QUERIES.pop(query_id, None)] *)
Definition pop_pending (qid : string) (s : state) : option PendingQuery * state :=
  (pending s !! qid,
   {| pending := delete qid (pending s); next_uuid := next_uuid s;
      executed := executed s |}).

(** [cancel_pending_query] *)
Definition cancel_pending_query (qid : string) (s : state) : bool * state :=
  let (o, s') := pop_pending qid s in
  (match o with Some _ => true | None => false end, s').

Definition no_pending_msg : string :=
  "No pending query found (it may have been executed or cancelled already).".

(** [execute_pending_query] *)
Definition execute_pending_query (qid : string) (s : state) : string * state :=
  let (o, s') := pop_pending qid s in
  match o with
  | None => (no_pending_msg, s')
  | Some pq =>
      let s'' := {| pending := pending s'; next_uuid := next_uuid s';
                    executed := executed s' ++ [pq] |} in
      (match snowflake (sql pq) with
       | Rows j => j
       | NoRows => "Query executed successfully but returned no rows."
       | Failed e => "Error executing query: " ++ e
       end, s'')
  end.

(** [_pending_response]; [json.dumps] is the serialiser. *)
Variable json_dumps : json -> string.

(** [asdict(pq)] *)
Definition asdict (pq : PendingQuery) : json :=
  JObj [("query_id", JStr (query_id pq)); ("tool_name", JStr (tool_name pq));
        ("sql", JStr (sql pq)); ("created_at", JNum (created_at pq))].

Definition pending_payload (pq : PendingQuery) : json :=
  JObj [("status", JStr "PENDING_APPROVAL"); ("query", asdict pq)].

Definition _pending_response (pq : PendingQuery) : string :=
  json_dumps (pending_payload pq).

(** [SNOWFLAKE_DATABASE], [SNOWFLAKE_SCHEMA] (read from the environment)
    and [MARTS_SCHEMA]. *)
Variables SNOWFLAKE_DATABASE SNOWFLAKE_SCHEMA : string.
Definition MARTS_SCHEMA : string := "MART".

(** [{SNOWFLAKE_DATABASE}.{SNOWFLAKE_SCHEMA}_{MARTS_SCHEMA}] *)
Definition mart : string :=
  SNOWFLAKE_DATABASE ++ "." ++ SNOWFLAKE_SCHEMA ++ "_" ++ MARTS_SCHEMA.

(** [where_clause = "WHERE " + " AND ".join(conditions) if conditions else ""] *)
Definition where_of (conditions : list string) : string :=
  match conditions with
  | [] => ""
  | _ => "WHERE " ++ join " AND " conditions
  end.

Definition opt_cond (o : option string) (f : string -> string) : list string :=
  match truthy o with Some v => [f v] | None => [] end.

(** The [customer_name] condition of [query_transactions]: [name_parts[0]]
    raises [IndexError] on a blank name. *)
Definition transactions_name_condition (customer_name : string) : exc string :=
  match split (strip customer_name) with
  | [] => Raise "list index out of range"
  | [name] =>
      Ok ("TRIM(c.first_name) ILIKE ('%" ++ name ++ "%') OR TRIP(c.last_name) ILIKE '%"
          ++ name ++ "%'")
  | first_name :: rest =>
      Ok ("TRIM(c.first_name) ILIKE '%" ++ first_name ++
          "%' AND TRIM(c.last_name) ILIKE '%" ++ join " " rest ++ "%'")
  end.

Definition query_transactions_sql (customer_id customer_name asset_symbol
    transaction_type : option string) (limit : Z) : exc string :=
  let c1 := opt_cond customer_id (fun v => "c.customer_id = '" ++ v ++ "'") in
  let c2 := match truthy customer_name with
            | Some n => match transactions_name_condition n with
                        | Ok c => Ok [c] | Raise e => Raise e end
            | None => Ok []
            end in
  match c2 with
  | Raise e => Raise e
  | Ok c2 =>
      let c3 := opt_cond asset_symbol (fun v => "h.asset_symbol = '" ++ v ++ "'") in
      let c4 := opt_cond transaction_type
                  (fun v => "t.transaction_type = '" ++ upper v ++ "'") in
      let where_clause := where_of (c1 ++ c2 ++ c3 ++ c4)%list in
      Ok ("
        SELECT
            c.customer_id,
            c.first_name,
            c.last_name,
            h.asset_symbol,
            h.asset_type,
            t.transaction_type,
            t.transaction_amount,
            t.fee_amount,
            t.transaction_timestamp,
            t.data_date,
            c.customer_tier,
            c.country
        FROM " ++ mart ++ ".fct_transactions t
        JOIN " ++ mart ++ ".dim_customer c
            ON t.customer_hk = c.customer_hk
        JOIN " ++ mart ++ ".dim_asset h
            ON t.asset_hk = h.asset_hk
        " ++ where_clause ++ "
        ORDER BY t.transaction_timestamp DESC
        LIMIT " ++ str_int limit ++ "
        ")
  end.

Definition query_asset_prices_sql (asset_symbol asset_type : option string)
    (days limit : Z) : string :=
  let conditions :=
    app ["observed_at >= DATEADD(day, -" ++ str_int days ++ ", CURRENT_DATE())"]
      (app (opt_cond asset_symbol (fun v => "asset_symbol = '" ++ v ++ "'"))
           (opt_cond asset_type (fun v => "asset_type = '" ++ v ++ "'"))) in
  let where_clause := "WHERE " ++ join " AND " conditions in
  "
        SELECT
            asset_symbol,
            asset_type,
            observed_at,
            price,
            volume,
            price_source,
            asset_class,
            price_date
        FROM " ++ mart ++ ".fct_asset_prices
        " ++ where_clause ++ "
        ORDER BY observed_at DESC
        LIMIT " ++ str_int limit ++ "
        ".

Definition valid_groups : list string :=
  ["asset_symbol"; "customer_tier"; "country"; "transaction_type"].

Definition invalid_group_by_msg : string :=
  "Invalid group_by. Must be one of: " ++ join ", " valid_groups.

Definition query_transaction_summary_sql (group_by : string) (limit : Z) : string :=
  "
        SELECT
            " ++ group_by ++ ",
            COUNT(*) as transaction_count,
            SUM(t.transaction_amount) as total_amount,
            AVG(t.transaction_amount) as avg_amount,
            SUM(t.fee_amount) as total_fees,
            COUNT(DISTINCT t.customer_hk) as unique_customers
        FROM " ++ mart ++ ".fct_transactions t
        JOIN " ++ mart ++ ".dim_customer c
            ON t.customer_hk = c.customer_hk
        JOIN " ++ mart ++ ".dim_asset h
            ON t.asset_hk = h.asset_hk
        GROUP BY " ++ group_by ++ "
        ORDER BY total_amount DESC
        LIMIT " ++ str_int limit ++ "
        ".

Definition query_price_trends_sql (asset_symbol : string) (days : Z) : string :=
  "
        SELECT
            asset_symbol,
            price_date,
            observed_at,
            price,
            volume,
            price_source,
            LAG(price) OVER (ORDER BY observed_at) as previous_price,
            price - LAG(price) OVER (ORDER BY observed_at) as price_change,
            ((price - LAG(price) OVER (ORDER BY observed_at)) / LAG(price) OVER (ORDER BY observed_at)) * 100 as price_change_pct
        FROM " ++ mart ++ ".fct_asset_prices
        WHERE asset_symbol = '" ++ asset_symbol ++ "'
            AND observed_at >= DATEADD(day, -" ++ str_int days ++ ", CURRENT_DATE())
        ORDER BY observed_at ASC
        ".

Definition query_news_events_sql (asset_symbol : option string) (limit : Z) : string :=
  let where_clause :=
    match truthy asset_symbol with
    | Some v => "WHERE h.asset_symbol = '" ++ v ++ "'"
    | None => ""
    end in
  "
        SELECT
            h.asset_symbol,
            n.title,
            n.description,
            n.published_at,
            n.ingestion_source
        FROM " ++ mart ++ ".fct_news_events n
        JOIN " ++ mart ++ ".dim_asset h
            ON n.asset_hk = h.asset_hk
        " ++ where_clause ++ "
        ORDER BY n.published_at DESC
        LIMIT " ++ str_int limit ++ "
        ".

Definition query_customer_by_name_sql (customer_name : string) (limit : Z) : exc string :=
  let where_clause :=
    match split (strip customer_name) with
    | [] => Raise "list index out of range"
    | [name] =>
        Ok ("WHERE TRIM(c.first_name) LIKE '%" ++ name ++
            "%' OR TRIM(c.last_name) LIKE '%" ++ name ++ "%'")
    | first_name :: rest =>
        Ok ("WHERE TRIM(c.first_name) ILIKE '%" ++ first_name ++
            "%' AND TRIM(c.last_name) LIKE '%" ++ join " " rest ++ "%'")
    end in
  match where_clause with
  | Raise e => Raise e
  | Ok where_clause => Ok ("
        SELECT
            c.customer_id,
            c.first_name,
            c.last_name,
            c.email_addr,
            c.country,
            c.customer_tier,
            c.risk_tolerance,
            c.company_name
        FROM " ++ mart ++ ".dim_customer c
        " ++ where_clause ++ "
        ORDER BY c.customer_id
        LIMIT " ++ str_int limit ++ "
        ")
  end.

(** The warehouse tools. Each builds its statement and stages it with
    [_register_pending_query]; an exception while building is turned into
    an error text by the tool's own [try]/[except]. *)
Definition stage (tool_name0 sql0 : string) (s : state) : string * state :=
  let (pq, s') := _register_pending_query tool_name0 sql0 s in
  (_pending_response pq, s').

Definition query_transactions (customer_id customer_name asset_symbol
    transaction_type : option string) (limit : Z) (s : state) : string * state :=
  match query_transactions_sql customer_id customer_name asset_symbol
          transaction_type limit with
  | Ok sql0 => stage "query_transactions" sql0 s
  | Raise e => ("Error preparing transactions query: " ++ e, s)
  end.

Definition query_asset_prices (asset_symbol asset_type : option string)
    (days limit : Z) (s : state) : string * state :=
  stage "query_asset_prices" (query_asset_prices_sql asset_symbol asset_type days limit) s.

Definition query_transaction_summary (group_by : string) (limit : Z) (s : state)
    : string * state :=
  if existsb (String.eqb group_by) valid_groups then
    stage "query_transaction_summary" (query_transaction_summary_sql group_by limit) s
  else (invalid_group_by_msg, s).

Definition query_price_trends (asset_symbol : string) (days : Z) (s : state)
    : string * state :=
  stage "query_price_trends" (query_price_trends_sql asset_symbol days) s.

Definition query_news_events (asset_symbol : option string) (limit : Z) (s : state)
    : string * state :=
  stage "query_news_events" (query_news_events_sql asset_symbol limit) s.

Definition query_customer_by_name (customer_name : string) (limit : Z) (s : state)
    : string * state :=
  match query_customer_by_name_sql customer_name limit with
  | Ok sql0 => stage "query_customer_by_name" sql0 s
  | Raise e => ("Error preparing customer search query: " ++ e, s)
  end.

(** An invocation of one of [WAREHOUSE_TOOLS] with validated arguments. *)
Inductive warehouse_call : Type :=
| QueryTransactions (customer_id customer_name asset_symbol transaction_type : option string)
    (limit : Z)
| QueryAssetPrices (asset_symbol asset_type : option string) (days limit : Z)
| QueryTransactionSummary (group_by : string) (limit : Z)
| QueryPriceTrends (asset_symbol : string) (days : Z)
| QueryNewsEvents (asset_symbol : option string) (limit : Z)
| QueryCustomerByName (customer_name : string) (limit : Z).

Definition warehouse_tool (c : warehouse_call) : state -> string * state :=
  match c with
  | QueryTransactions a b d e l => query_transactions a b d e l
  | QueryAssetPrices a b d l => query_asset_prices a b d l
  | QueryTransactionSummary g l => query_transaction_summary g l
  | QueryPriceTrends a d => query_price_trends a d
  | QueryNewsEvents a l => query_news_events a l
  | QueryCustomerByName n l => query_customer_by_name n l
  end.

Definition call_tool_name (c : warehouse_call) : string :=
  match c with
  | QueryTransactions _ _ _ _ _ => "query_transactions"
  | QueryAssetPrices _ _ _ _ => "query_asset_prices"
  | QueryTransactionSummary _ _ => "query_transaction_summary"
  | QueryPriceTrends _ _ => "query_price_trends"
  | QueryNewsEvents _ _ => "query_news_events"
  | QueryCustomerByName _ _ => "query_customer_by_name"
  end.

(** The statement a call builds, when building it gets as far as
    [_register_pending_query]. *)
Definition call_sql (c : warehouse_call) : option string :=
  match c with
  | QueryTransactions a b d e l =>
      match query_transactions_sql a b d e l with Ok q => Some q | Raise _ => None end
  | QueryAssetPrices a b d l => Some (query_asset_prices_sql a b d l)
  | QueryTransactionSummary g l =>
      if existsb (String.eqb g) valid_groups
      then Some (query_transaction_summary_sql g l) else None
  | QueryPriceTrends a d => Some (query_price_trends_sql a d)
  | QueryNewsEvents a l => Some (query_news_events_sql a l)
  | QueryCustomerByName n l =>
      match query_customer_by_name_sql n l with Ok q => Some q | Raise _ => None end
  end.

(** The calls the rest of the program makes on the store: tool invocations
    from the agent, and [execute_approved_query], [cancel_query] and
    [get_pending_query] from the approval front ends. *)
Inductive op : Type :=
| Invoke (c : warehouse_call)
| Approve (qid : string)
| Cancel (qid : string)
| Peek (qid : string).

Inductive response : Type :=
| RTool (r : string)
| RExec (r : string)
| RCancel (b : bool)
| RPeek (o : option PendingQuery).

Definition step (o : op) (s : state) : response * state :=
  match o with
  | Invoke c => let (r, s') := warehouse_tool c s in (RTool r, s')
  | Approve q => let (r, s') := execute_pending_query q s in (RExec r, s')
  | Cancel q => let (b, s') := cancel_pending_query q s in (RCancel b, s')
  | Peek q => (RPeek (get_pending_query q s), s)
  end.

Fixpoint run (ops : list op) (s : state) : list response * state :=
  match ops with
  | [] => ([], s)
  | o :: ops' =>
      let (r, s1) := step o s in
      let (rs, s2) := run ops' s1 in
      (r :: rs, s2)
  end.

(** How many times the statement staged under [q] was run. *)
Definition exec_count (q : string) (s : state) : nat :=
  length (List.filter (fun pq => String.eqb (query_id pq) q) (executed s)).

(** [q] was drawn by [uuid.uuid4()] at some earlier staging. *)
Definition issued (s : state) (q : string) : Prop :=
  exists j, (j < next_uuid s)%nat /\ uuid4 j = q.

(** [q] was staged and its record has since been popped. *)
Definition consumed (s : state) (q : string) : Prop :=
  issued s q /\ pending s !! q = None.

(** Invariant of the store: records sit under their own id, every id in
    the store or in the execution log was drawn earlier, and for each id
    its executions plus its live record number at most one. *)
Record inv (s : state) : Prop := {
  inv_keys : forall k pq, pending s !! k = Some pq ->
    query_id pq = k /\ issued s k;
  inv_exec : forall pq, In pq (executed s) -> issued s (query_id pq);
  inv_once : forall q,
    (exec_count q s + (if pending s !! q then 1 else 0) <= 1)%nat
}.

End Store.

End WarehouseTools.

(* ------------------------------------------------------------------ *)
(* chatbot.py: tool dispatch and turn post-processing                  *)
(* ------------------------------------------------------------------ *)

Module Chatbot.

(** A tool call requested by the assistant: [{"name", "args", "id"}]. *)
Record tool_call : Type := {
  tc_name : string;
  tc_args : json;
  tc_id : string
}.

(** The langchain messages the graph appends to a thread. *)
Inductive message : Type :=
| SystemMessage (content : string)
| HumanMessage (content : string)
| AIMessage (content : string) (tool_calls : list tool_call)
| ToolMessage (content : string) (name : string) (tool_call_id : string).

Definition msg_content (m : message) : string :=
  match m with
  | SystemMessage c | HumanMessage c | AIMessage c _ | ToolMessage c _ _ => c
  end.

(** The nodes of the agent graph. *)
Inductive node : Type := NChatbot | NTools | NEnd.

(** [route_query] *)
Definition route_query (messages : list message) : node :=
  match last messages with
  | Some (AIMessage _ (_ :: _)) => NTools
  | _ => NEnd
  end.

(** The edges: [START -> chatbot], [chatbot -> route_query],
    [tools -> chatbot]. *)
Definition next_node (n : node) (messages : list message) : node :=
  match n with
  | NChatbot => route_query messages
  | NTools => NChatbot
  | NEnd => NEnd
  end.

Section Dispatch.

(** The state the tools act on (for the warehouse tools, the pending-query
    store). *)
Variable St : Type.
(** [self.tools_by_name.get(name)]: a registered tool's [invoke] on the
    supplied arguments, giving [str(result)] or raising. *)
Variable tools_by_name : string -> option (json -> St -> exc string * St).

(** The body of the [for tool_call in last_message.tool_calls] loop. *)
Definition dispatch_one (tc : tool_call) (s : St) : message * St :=
  match tools_by_name (tc_name tc) with
  | Some tool =>
      match tool (tc_args tc) s with
      | (Ok r, s') => (ToolMessage r (tc_name tc) (tc_id tc), s')
      | (Raise e, s') => (ToolMessage ("Error: " ++ e) (tc_name tc) (tc_id tc), s')
      end
  | None => (ToolMessage ("Tool " ++ tc_name tc ++ " not found") (tc_name tc) (tc_id tc), s)
  end.

Fixpoint dispatch (calls : list tool_call) (s : St) : list message * St :=
  match calls with
  | [] => ([], s)
  | tc :: calls' =>
      let (m, s1) := dispatch_one tc s in
      let (ms, s2) := dispatch calls' s1 in
      (m :: ms, s2)
  end.

(** [tools_node]: the messages it returns, and the tools' state after. *)
Definition tools_node (messages : list message) (s : St) : list message * St :=
  match last messages with
  | Some (AIMessage _ calls) =>
      match calls with [] => ([], s) | _ :: _ => dispatch calls s end
  | _ => ([], s)
  end.

End Dispatch.

Definition WAREHOUSE_TOOL_NAMES : list string :=
  ["query_transactions"; "query_asset_prices"; "query_transaction_summary";
   "query_price_trends"; "query_news_events"; "query_customer_by_name"].

(** A citation: [{"content": ..., "metadata": ...}]. *)
Record source : Type := {
  src_content : string;
  src_metadata : json
}.

(** What [chat] accumulates while scanning the turn's messages. *)
Record scan_acc : Type := {
  sources : list source;
  warehouse_tools_used : list string;
  rag_tools_used : list string;
  pending_queries : list json
}.

Definition empty_acc : scan_acc :=
  {| sources := []; warehouse_tools_used := []; rag_tools_used := [];
     pending_queries := [] |}.

(** The dict [chat] returns; [t_pending_queries] is [None] when the dict
    has no ["pending_queries"] key. *)
Record turn_result : Type := {
  answer : string;
  t_sources : list source;
  t_warehouse_tools_used : list string;
  t_rag_tools_used : list string;
  t_pending_queries : option (list json);
  method : string
}.

Section Turn.

(** [json.loads]: [None] when it raises. *)
Variable json_loads : string -> option json.
(** [str(doc)] for a dict. *)
Variable py_str : json -> string.

(** [_try_parse_pending_query_payload] *)
Definition _try_parse_pending_query_payload (payload : string) : option json :=
  match json_loads payload with
  | Some (JObj d) =>
      match dict_get d "status", dict_get d "query" with
      | Some (JStr st), Some (JObj q) =>
          if String.eqb st "PENDING_APPROVAL" then Some (JObj q) else None
      | _, _ => None
      end
  | _ => None
  end.

(** One entry of [docs[:3]]: a source, nothing (not a dict), or the
    exception raised by [[:200] + "..."] on a non-string [page_content]. *)
Definition doc_source (doc : json) : exc (option source) :=
  match doc with
  | JObj d =>
      let page := match dict_get d "page_content" with
                  | Some v => v | None => JStr (py_str doc) end in
      match page with
      | JStr c =>
          Ok (Some {| src_content := slice_to 200 c ++ "...";
                      src_metadata := match dict_get d "metadata" with
                                      | Some m => m | None => JObj [] end |})
      | _ => Raise "TypeError"
      end
  | _ => Ok None
  end.

(** The [for doc in docs[:3]] loop; an exception leaves the loop and is
    swallowed by the [except: pass], keeping what was appended. *)
Fixpoint collect_sources (docs : list json) (acc : list source) : list source :=
  match docs with
  | [] => acc
  | d :: docs' =>
      match doc_source d with
      | Ok (Some x) => collect_sources docs' (acc ++ [x])
      | Ok None => collect_sources docs' acc
      | Raise _ => acc
      end
  end.

(** The sources a [document_search] result contributes. *)
Definition document_sources (content : string) : list source :=
  match json_loads content with
  | Some (JArr docs) => collect_sources (take 3 docs) []
  | _ => []
  end.

Definition scan_tool_call (a : scan_acc) (tc : tool_call) : scan_acc :=
  let n := tc_name tc in
  {| sources := sources a;
     warehouse_tools_used :=
       if existsb (String.eqb n) WAREHOUSE_TOOL_NAMES
       then warehouse_tools_used a ++ [n] else warehouse_tools_used a;
     rag_tools_used :=
       if String.eqb n "document_search"
       then rag_tools_used a ++ [n] else rag_tools_used a;
     pending_queries := pending_queries a |}.

(** The body of the [for msg in messages_this_turn] loop. *)
Definition scan_message (a : scan_acc) (m : message) : scan_acc :=
  match m with
  | AIMessage _ calls => fold_left scan_tool_call calls a
  | ToolMessage content name _ =>
      let a1 :=
        if String.eqb name "document_search" then
          {| sources := sources a ++ document_sources content;
             warehouse_tools_used := warehouse_tools_used a;
             rag_tools_used :=
               if existsb (String.eqb "document_search") (rag_tools_used a)
               then rag_tools_used a else rag_tools_used a ++ ["document_search"];
             pending_queries := pending_queries a |}
        else a in
      match _try_parse_pending_query_payload content with
      | Some pq =>
          {| sources := sources a1; warehouse_tools_used := warehouse_tools_used a1;
             rag_tools_used := rag_tools_used a1;
             pending_queries := pending_queries a1 ++ [pq] |}
      | None => a1
      end
  | _ => a
  end.

Definition scan (messages : list message) : scan_acc :=
  fold_left scan_message messages empty_acc.

Definition error_result (e : string) : turn_result :=
  {| answer := "I encountered an error: " ++ e ++ ". Please try rephrasing your question.";
     t_sources := []; t_warehouse_tools_used := []; t_rag_tools_used := [];
     t_pending_queries := None; method := "error" |}.

(** [answer or default] *)
Definition or_default (a d : string) : string :=
  if String.eqb a "" then d else a.

(** [messages_before]: the length of the thread read by [get_state], or 0
    when that read raises (the bare [except]). *)
Definition messages_before (get_state : exc (list message)) : nat :=
  match get_state with Ok msgs => length msgs | Raise _ => 0%nat end.

(** [result["messages"][messages_before:] if messages_before > 0 else
    result["messages"]] *)
Definition messages_this_turn (before : nat) (result : list message) : list message :=
  if Nat.ltb 0 before then drop before result else result.

(** The payloads the detector finds among the tool results of [msgs]. *)
Definition detected_payloads (msgs : list message) : list json :=
  flat_map (fun m => match m with
                     | ToolMessage c _ _ =>
                         match _try_parse_pending_query_payload c with
                         | Some q => [q] | None => [] end
                     | _ => []
                     end) msgs.

(** [chat]. [get_state] is [self.graph.get_state(config)] (the thread's
    messages, or the exception it raised); [graph_invoke] runs the graph
    on the new user message and gives the thread's messages after the
    turn. *)
Definition chat (question : string) (get_state : exc (list message))
    (graph_invoke : message -> exc (list message)) : turn_result :=
  let before := messages_before get_state in
  match graph_invoke (HumanMessage question) with
  | Raise e => error_result e
  | Ok result =>
      match last result with
      | None => error_result "list index out of range"
      | Some final_message =>
          let ans := msg_content final_message in
          let a := scan (messages_this_turn before result) in
          match pending_queries a with
          | _ :: _ =>
              {| answer := or_default ans
                   "I can run a warehouse query to answer that. Please review and approve the SQL.";
                 t_sources := sources a;
                 t_warehouse_tools_used := warehouse_tools_used a;
                 t_rag_tools_used := rag_tools_used a;
                 t_pending_queries := Some (pending_queries a);
                 method := "pending_approval" |}
          | [] =>
              {| answer := or_default ans "I couldn't generate a response.";
                 t_sources := sources a;
                 t_warehouse_tools_used := warehouse_tools_used a;
                 t_rag_tools_used := rag_tools_used a;
                 t_pending_queries := None;
                 method := "agent_with_tools" |}
          end
      end
  end.

End Turn.

End Chatbot.

(* ------------------------------------------------------------------ *)
(* The approval front ends: the CLI loop of chatbot.py and the          *)
(* Streamlit page of chatbot_app.py                                     *)
(* ------------------------------------------------------------------ *)

Definition lower_char (c : Ascii.ascii) : Ascii.ascii :=
  let n := Ascii.nat_of_ascii c in
  if Nat.leb 65 n && Nat.leb n 90 then Ascii.ascii_of_nat (n + 32)%nat else c.

(** [s.lower()] (ASCII letters). *)
Fixpoint lower (s : string) : string :=
  match s with
  | EmptyString => EmptyString
  | String c s' => String (lower_char c) (lower s')
  end.

Module Frontends.
Import WarehouseTools Chatbot.

(** Python truthiness of a value read from a payload ([not v]). *)
Definition json_truthy (v : json) : bool :=
  match v with
  | JNull => false
  | JBool b => b
  | JNum q => negb (Qeq_bool q 0)
  | JStr s => negb (String.eqb s "")
  | JArr l => match l with [] => false | _ => true end
  | JObj d => match d with [] => false | _ => true end
  end.

(** A payload value used as a key of [_PENDING_QUERIES] in [pop(v, None)]:
    a string is looked up; a number, a boolean or [None] is hashable but
    equals no string key; a list or a dict raises [TypeError]. *)
Definition store_key (v : json) : exc (option string) :=
  match v with
  | JStr k => Ok (Some k)
  | JArr _ => Raise "unhashable type: 'list'"
  | JObj _ => Raise "unhashable type: 'dict'"
  | _ => Ok None
  end.

Section Store.

Variable snowflake : string -> exec_outcome.

(** [AdvancedRAGChatbot.execute_approved_query] *)
Definition execute_approved_query (qid : json) (s : state) : exc string * state :=
  match store_key qid with
  | Raise e => (Raise e, s)
  | Ok (Some k) => let (r, s') := execute_pending_query snowflake k s in (Ok r, s')
  | Ok None => (Ok no_pending_msg, s)
  end.

(** [AdvancedRAGChatbot.cancel_query] *)
Definition cancel_query (qid : json) (s : state) : exc bool * state :=
  match store_key qid with
  | Raise e => (Raise e, s)
  | Ok (Some k) => let (b, s') := cancel_pending_query k s in (Ok b, s')
  | Ok None => (Ok false, s)
  end.

(** An entry of [executed_payloads] in [main]. *)
Record executed_payload : Type := {
  ep_query_id : json;
  ep_tool_name : option json;
  ep_sql : string;
  ep_result : string
}.

(** [input(...).strip().lower() in {"y", "yes"}] *)
Definition approves (answer : string) : bool :=
  let a := lower (strip answer) in
  String.eqb a "y" || String.eqb a "yes".

(** The approval loop of [main] over [result["pending_queries"]].
    [inputs] are the lines the user types, in order ([input] raises
    [EOFError] when there are none left). It gives the executed payloads,
    or the exception that leaves the loop (the CLI prints it and reads
    the next question), the store after, and the unread lines. *)
Fixpoint approval_loop (pqs : list json) (inputs : list string) (s : state)
    (acc : list executed_payload) : exc (list executed_payload) * state * list string :=
  match pqs with
  | [] => (Ok acc, s, inputs)
  | pq :: rest =>
      match pq with
      | JObj d =>
          let tool_name0 := dict_get d "tool_name" in
          match dict_get d "query_id", dict_get d "sql" with
          | Some qid, Some sq =>
              if json_truthy qid && json_truthy sq then
                match sq with
                | JStr sql0 =>
                    match inputs with
                    | [] => (Raise "EOF when reading a line", s, [])
                    | ans :: inputs' =>
                        if approves ans then
                          match execute_approved_query qid s with
                          | (Raise e, s') => (Raise e, s', inputs')
                          | (Ok r, s') =>
                              approval_loop rest inputs' s'
                                (acc ++ [{| ep_query_id := qid; ep_tool_name := tool_name0;
                                            ep_sql := sql0; ep_result := r |}])
                          end
                        else
                          match cancel_query qid s with
                          | (Raise e, s') => (Raise e, s', inputs')
                          | (Ok _, s') => approval_loop rest inputs' s' acc
                          end
                    end
                | _ => (Raise "object has no attribute 'strip'", s, inputs)
                end
              else approval_loop rest inputs s acc
          | _, _ => approval_loop rest inputs s acc
          end
      | _ => (Raise "object has no attribute 'get'", s, inputs)
      end
  end.

(** chatbot_app.py, on a new prompt: [for pq in pending_queries: try:
    chatbot.cancel_query(pq["query_id"]) except: pass]. *)
Fixpoint cancel_previous (pqs : list json) (s : state) : state :=
  match pqs with
  | [] => s
  | pq :: rest =>
      let s' :=
        match pq with
        | JObj d =>
            match dict_get d "query_id" with
            | Some v => match cancel_query v s with (Ok _, s1) => s1 | (Raise _, s1) => s1 end
            | None => s
            end
        | _ => s
        end in
      cancel_previous rest s'
  end.

End Store.

End Frontends.

(* ------------------------------------------------------------------ *)
(* Views used to state properties                                       *)
(* ------------------------------------------------------------------ *)

Module Views.
Import WarehouseTools Chatbot Frontends.

(** The names of the tool calls the assistant messages of [msgs] request,
    in order. *)
Definition call_names (msgs : list message) : list string :=
  flat_map (fun m => match m with AIMessage _ calls => map tc_name calls | _ => [] end) msgs.

(** The tool names of the tool-result messages of [msgs], in order. *)
Definition result_names (msgs : list message) : list string :=
  flat_map (fun m => match m with ToolMessage _ n _ => [n] | _ => [] end) msgs.

(** The contents of the [document_search] results of [msgs], in order. *)
Definition document_search_contents (msgs : list message) : list string :=
  flat_map (fun m => match m with
                     | ToolMessage c n _ => if String.eqb n "document_search" then [c] else []
                     | _ => []
                     end) msgs.

(** The store key a payload value names, when it is a string. *)
Definition key_ids (v : json) : list string :=
  match v with JStr k => [k] | _ => [] end.

(** The string [query_id]s of a list of payload queries. *)
Definition listed_ids (pqs : list json) : list string :=
  flat_map (fun pq => match pq with
                      | JObj d => match dict_get d "query_id" with
                                  | Some v => key_ids v | None => [] end
                      | _ => []
                      end) pqs.

(** [s'] differs from [s] only at the ids [ids]: every other id has the
    record it had, no uuid was drawn, and the statements run meanwhile
    are those of records under [ids]. *)
Definition only_at (ids : list string) (s s' : state) : Prop :=
  (forall k, ~ In k ids -> pending s' !! k = pending s !! k) /\
  next_uuid s' = next_uuid s /\
  exists l, executed s' = (executed s ++ l)%list /\ Forall (fun p => In (query_id p) ids) l.

(** The text [execute_pending_query] returns for a warehouse outcome. *)
Definition outcome_text (o : exec_outcome) : string :=
  match o with
  | Rows j => j
  | NoRows => "Query executed successfully but returned no rows."
  | Failed e => "Error executing query: " ++ e
  end.

(** The records whose answer approves them. *)
Definition approved (pqs : list PendingQuery) (answers : list string) : list PendingQuery :=
  map fst (List.filter (fun p => approves (snd p)) (combine pqs answers)).

(** Dropping the leading whitespace of a list of characters. *)
Fixpoint drop_space (l : list Ascii.ascii) : list Ascii.ascii :=
  match l with
  | [] => []
  | c :: l' => if is_space c then drop_space l' else l
  end.

(** A string made of whitespace only. *)
Definition blank (s : string) : Prop :=
  Forall (fun c => is_space c = true) (String.list_ascii_of_string s).

(** Every record in the store was staged by a warehouse tool (the
    statement built for a call, stripped), under its own id. *)
Definition staged_by_tool (DB SC : string) (s : state) : Prop :=
  forall k pq, pending s !! k = Some pq ->
    query_id pq = k /\
    exists c sql0, call_sql DB SC c = Some sql0 /\ tool_name pq = call_tool_name c /\
                   sql pq = strip sql0.

(** Every record of the store is kept under its own [query_id]. *)
Definition keyed (s : state) : Prop :=
  forall k pq, pending s !! k = Some pq -> query_id pq = k.

(** [name in WAREHOUSE_TOOL_NAMES] *)
Definition is_warehouse (n : string) : bool := existsb (String.eqb n) WAREHOUSE_TOOL_NAMES.

(** The entry [main] appends to [executed_payloads] for an approved
    record, given the text the warehouse call returned. *)
Definition executed_entry (snowflake : string -> exec_outcome) (pq : PendingQuery)
    : executed_payload :=
  {| ep_query_id := JStr (query_id pq); ep_tool_name := Some (JStr (tool_name pq));
     ep_sql := sql pq; ep_result := outcome_text (snowflake (sql pq)) |}.

End Views.

(* ------------------------------------------------------------------ *)
(* Proofs about the pending-query store                                *)
(* ------------------------------------------------------------------ *)

Module StoreProofs.
Import WarehouseTools.

Section Proofs.

Variable uuid4 : nat -> string.
Variable time_time : nat -> Q.
Variable snowflake : string -> exec_outcome.
Variable json_dumps : json -> string.
Variables DB SC : string.

Lemma inv_initial : inv uuid4 initial_state.
Proof.
  constructor; simpl.
  - intros k pq H. rewrite lookup_empty in H. discriminate.
  - intros pq [].
  - intros q. unfold exec_count. simpl. rewrite lookup_empty. lia.
Qed.

Lemma exec_count_snoc (q : string) (l : list PendingQuery) (pq : PendingQuery) :
  length (List.filter (fun p => String.eqb (query_id p) q) (l ++ [pq])) =
  (length (List.filter (fun p => String.eqb (query_id p) q) l) +
   (if String.eqb (query_id pq) q then 1 else 0))%nat.
Proof.
  rewrite List.filter_app, length_app. simpl.
  destruct (String.eqb (query_id pq) q); simpl; lia.
Qed.

Lemma exec_count_none (s : state) (q : string) :
  (forall pq, In pq (executed s) -> query_id pq <> q) -> exec_count q s = 0%nat.
Proof.
  unfold exec_count. induction (executed s) as [|p l IH]; intros H; simpl; [done|].
  destruct (String.eqb (query_id p) q) eqn:E.
  - apply String.eqb_eq in E. exfalso. eapply H; [left; done | done].
  - apply IH. intros pq Hin. apply H. right. done.
Qed.

Section Injective.

Hypothesis uuid4_inj : forall i j, uuid4 i = uuid4 j -> i = j.

(** A freshly drawn id is not in use. *)
Lemma fresh_id (s : state) :
  inv uuid4 s -> ~ issued uuid4 s (uuid4 (next_uuid s)).
Proof.
  intros _ [j [Hj Heq]]. apply uuid4_inj in Heq. lia.
Qed.

Lemma register_inv (n sql0 : string) (s : state) :
  inv uuid4 s -> inv uuid4 (snd (_register_pending_query uuid4 time_time n sql0 s)).
Proof.
  intros Hs. pose proof (fresh_id s Hs) as Hfresh.
  set (k := uuid4 (next_uuid s)) in *.
  assert (Hk : pending s !! k = None).
  { destruct (pending s !! k) as [pq|] eqn:E; [|done].
    exfalso. apply Hfresh. apply (inv_keys uuid4 s Hs k pq E). }
  assert (Hc : exec_count k s = 0%nat).
  { apply exec_count_none. intros pq Hin Heq. apply Hfresh.
    rewrite <- Heq. apply (inv_exec uuid4 s Hs pq Hin). }
  constructor; simpl.
  - intros k' pq H. destruct (decide (k = k')) as [<-|Hne].
    + rewrite lookup_insert_eq in H. injection H as <-. split; [done|].
      exists (next_uuid s). simpl. split; [lia|done].
    + rewrite lookup_insert_ne in H by done.
      destruct (inv_keys uuid4 s Hs k' pq H) as [Hid [j [Hj Hu]]].
      split; [done|]. exists j. simpl. split; [lia|done].
  - intros pq Hin. destruct (inv_exec uuid4 s Hs pq Hin) as [j [Hj Hu]].
    exists j. simpl. split; [lia|done].
  - intros q. unfold exec_count. simpl. fold (exec_count q s).
    destruct (decide (k = q)) as [<-|Hne].
    + rewrite lookup_insert_eq, Hc. lia.
    + rewrite lookup_insert_ne by done. apply (inv_once uuid4 s Hs q).
Qed.

Lemma stage_snd (n sql0 : string) (s : state) :
  snd (stage uuid4 time_time json_dumps n sql0 s) =
  snd (_register_pending_query uuid4 time_time n sql0 s).
Proof. reflexivity. Qed.

(** A warehouse tool either leaves the store alone or stages one query. *)
Lemma warehouse_tool_cases (c : warehouse_call) (s : state) :
  snd (warehouse_tool uuid4 time_time json_dumps DB SC c s) = s \/
  exists n sql0,
    snd (warehouse_tool uuid4 time_time json_dumps DB SC c s) =
    snd (_register_pending_query uuid4 time_time n sql0 s).
Proof.
  destruct c; simpl.
  - unfold query_transactions.
    destruct (query_transactions_sql DB SC customer_id customer_name asset_symbol
                transaction_type limit); [right; eexists _, _; apply stage_snd | left; done].
  - right. eexists _, _. apply stage_snd.
  - unfold query_transaction_summary.
    destruct (existsb (String.eqb group_by) valid_groups);
      [right; eexists _, _; apply stage_snd | left; done].
  - right. eexists _, _. apply stage_snd.
  - right. eexists _, _. apply stage_snd.
  - unfold query_customer_by_name.
    destruct (query_customer_by_name_sql DB SC customer_name limit);
      [right; eexists _, _; apply stage_snd | left; done].
Qed.

Lemma pop_inv (q : string) (s : state) :
  inv uuid4 s -> inv uuid4 (snd (pop_pending q s)).
Proof.
  intros Hs. constructor; simpl.
  - intros k pq H. destruct (decide (q = k)) as [<-|Hne].
    + rewrite lookup_delete_eq in H. discriminate.
    + rewrite lookup_delete_ne in H by done. apply (inv_keys uuid4 s Hs k pq H).
  - apply (inv_exec uuid4 s Hs).
  - intros q'. unfold exec_count. simpl. fold (exec_count q' s).
    pose proof (inv_once uuid4 s Hs q') as H.
    destruct (decide (q = q')) as [<-|Hne].
    + rewrite lookup_delete_eq. lia.
    + rewrite lookup_delete_ne by done. exact H.
Qed.

Lemma execute_inv (q : string) (s : state) :
  inv uuid4 s -> inv uuid4 (snd (execute_pending_query snowflake q s)).
Proof.
  intros Hs. unfold execute_pending_query, pop_pending. simpl.
  destruct (pending s !! q) as [pq|] eqn:E; simpl.
  2: { apply (pop_inv q s Hs). }
  destruct (inv_keys uuid4 s Hs q pq E) as [Hid Hiss].
  constructor; simpl.
  - intros k p H. destruct (decide (q = k)) as [<-|Hne].
    + rewrite lookup_delete_eq in H. discriminate.
    + rewrite lookup_delete_ne in H by done. apply (inv_keys uuid4 s Hs k p H).
  - intros p Hin. apply in_app_or in Hin as [Hin|[<-|[]]].
    + apply (inv_exec uuid4 s Hs p Hin).
    + rewrite Hid. exact Hiss.
  - intros q'. unfold exec_count. simpl.
    rewrite exec_count_snoc. fold (exec_count q' s).
    pose proof (inv_once uuid4 s Hs q') as H. rewrite Hid.
    destruct (decide (q = q')) as [<-|Hne].
    + rewrite E in H. rewrite lookup_delete_eq, String.eqb_refl. lia.
    + rewrite lookup_delete_ne by done.
      apply String.eqb_neq in Hne. rewrite Hne. lia.
Qed.

Lemma step_inv (o : op) (s : state) :
  inv uuid4 s -> inv uuid4 (snd (step uuid4 time_time snowflake json_dumps DB SC o s)).
Proof.
  intros Hs. destruct o as [c|q|q|q]; simpl.
  - pose proof (warehouse_tool_cases c s) as Hc.
    destruct (warehouse_tool uuid4 time_time json_dumps DB SC c s) as [r s'] eqn:E.
    simpl in *. destruct Hc as [->|[n [sql0 ->]]]; [done|].
    apply register_inv. exact Hs.
  - pose proof (execute_inv q s Hs).
    destruct (execute_pending_query snowflake q s); done.
  - apply (pop_inv q s Hs).
  - done.
Qed.

Lemma run_inv (ops : list op) (s : state) :
  inv uuid4 s -> inv uuid4 (snd (run uuid4 time_time snowflake json_dumps DB SC ops s)).
Proof.
  revert s. induction ops as [|o ops IH]; intros s Hs; simpl; [done|].
  pose proof (step_inv o s Hs) as H1.
  destruct (step uuid4 time_time snowflake json_dumps DB SC o s) as [r s1].
  simpl in H1. pose proof (IH s1 H1) as H2.
  destruct (run uuid4 time_time snowflake json_dumps DB SC ops s1). done.
Qed.

Lemma consumed_step (o : op) (s : state) (q : string) :
  inv uuid4 s -> consumed uuid4 s q ->
  consumed uuid4 (snd (step uuid4 time_time snowflake json_dumps DB SC o s)) q /\
  exec_count q (snd (step uuid4 time_time snowflake json_dumps DB SC o s)) =
    exec_count q s /\
  (o = Approve q ->
     fst (step uuid4 time_time snowflake json_dumps DB SC o s) = RExec no_pending_msg) /\
  (o = Cancel q ->
     fst (step uuid4 time_time snowflake json_dumps DB SC o s) = RCancel false).
Proof.
  intros Hs [[j [Hj Hu]] Hnone].
  destruct o as [c|q'|q'|q'].
  - pose proof (warehouse_tool_cases c s) as Hc. simpl.
    destruct (warehouse_tool uuid4 time_time json_dumps DB SC c s) as [r s'] eqn:E.
    simpl in *. destruct Hc as [->|[n [sql0 ->]]].
    + split_and!; [split; [exists j; done|done]|done|discriminate|discriminate].
    + split_and!; [|reflexivity|discriminate|discriminate].
      split; simpl.
      * exists j. simpl. split; [lia|done].
      * rewrite lookup_insert_ne; [done|].
        intros Heq. rewrite <- Hu in Heq. apply uuid4_inj in Heq. lia.
  - unfold step, execute_pending_query, pop_pending. simpl.
    destruct (decide (q' = q)) as [->|Hne].
    + rewrite Hnone. simpl. split_and!; [|done|done|discriminate].
      split; [exists j; done|]. simpl. apply lookup_delete_eq.
    + destruct (pending s !! q') as [pq|] eqn:E; simpl.
      * destruct (inv_keys uuid4 s Hs q' pq E) as [Hid _].
        split_and!.
        -- split; [exists j; done|]. simpl. rewrite lookup_delete_ne; done.
        -- unfold exec_count. simpl. rewrite exec_count_snoc, Hid.
           apply String.eqb_neq in Hne. rewrite Hne. simpl. lia.
        -- intros H. injection H as ->. done.
        -- discriminate.
      * split_and!; [|done|intros H; injection H as ->; done|discriminate].
        split; [exists j; done|]. simpl. rewrite lookup_delete_ne; done.
  - unfold step, cancel_pending_query, pop_pending. simpl.
    split_and!; [|done|discriminate|].
    + split; [exists j; done|]. simpl.
      destruct (decide (q' = q)) as [->|Hne];
        [apply lookup_delete_eq | rewrite lookup_delete_ne; done].
    + intros H. injection H as ->. rewrite Hnone. done.
  - simpl. split_and!; [split; [exists j; done|done]|done|discriminate|discriminate].
Qed.

Lemma consumed_run (ops : list op) (s : state) (q : string) :
  inv uuid4 s -> consumed uuid4 s q ->
  consumed uuid4 (snd (run uuid4 time_time snowflake json_dumps DB SC ops s)) q /\
  exec_count q (snd (run uuid4 time_time snowflake json_dumps DB SC ops s)) =
    exec_count q s /\
  Forall2 (fun o r => (o = Approve q -> r = RExec no_pending_msg) /\
                      (o = Cancel q -> r = RCancel false))
    ops (fst (run uuid4 time_time snowflake json_dumps DB SC ops s)).
Proof.
  revert s. induction ops as [|o ops IH]; intros s Hs Hc; simpl.
  - split_and!; [done|done|constructor].
  - pose proof (consumed_step o s q Hs Hc) as [Hc1 [Hn1 [Ha1 Hb1]]].
    pose proof (step_inv o s Hs) as Hs1.
    destruct (step uuid4 time_time snowflake json_dumps DB SC o s) as [r s1].
    simpl in *. destruct (IH s1 Hs1 Hc1) as [Hc2 [Hn2 Hf2]].
    destruct (run uuid4 time_time snowflake json_dumps DB SC ops s1) as [rs s2].
    simpl in *. split_and!; [done|lia|constructor; [split; done|done]].
Qed.

(** Claim C1 (at-most-once execution). Starting from the empty store, after
    any sequence [ops1] of tool invocations, approvals
    ([execute_pending_query]), cancellations ([cancel_pending_query]) and
    lookups, the statement staged under any [query_id] has been run at most
    once. Moreover, once the record of a staged [query_id] has been removed,
    every later call of [execute_pending_query] with that id answers
    "No pending query found ...", every later [cancel_pending_query] with it
    answers [false], and the statement is not run again. *)
Theorem at_most_once_execution (ops1 ops2 : list op) (q : string) :
  let s1 := snd (run uuid4 time_time snowflake json_dumps DB SC ops1 initial_state) in
  (exec_count q s1 <= 1)%nat /\
  (consumed uuid4 s1 q ->
     exec_count q (snd (run uuid4 time_time snowflake json_dumps DB SC ops2 s1)) =
       exec_count q s1 /\
     Forall2 (fun o r => (o = Approve q -> r = RExec no_pending_msg) /\
                         (o = Cancel q -> r = RCancel false))
       ops2 (fst (run uuid4 time_time snowflake json_dumps DB SC ops2 s1))).
Proof.
  intros s1.
  assert (Hs1 : inv uuid4 s1) by (apply run_inv, inv_initial).
  split.
  - pose proof (inv_once uuid4 s1 Hs1 q). lia.
  - intros Hc. destruct (consumed_run ops2 s1 q Hs1 Hc) as [_ [H1 H2]]. done.
Qed.

End Injective.

(** A warehouse call whose statement builds reaches [stage]. *)
Lemma warehouse_tool_build (c : warehouse_call) (s : state) (sql0 : string) :
  call_sql DB SC c = Some sql0 ->
  warehouse_tool uuid4 time_time json_dumps DB SC c s =
  stage uuid4 time_time json_dumps (call_tool_name c) sql0 s.
Proof.
  destruct c; cbn [call_sql warehouse_tool call_tool_name]; intros Hb.
  - unfold query_transactions.
    destruct (query_transactions_sql DB SC customer_id customer_name asset_symbol
                transaction_type limit); [injection Hb as ->; done|discriminate].
  - injection Hb as <-. done.
  - unfold query_transaction_summary.
    destruct (existsb (String.eqb group_by) valid_groups); [injection Hb as <-; done|discriminate].
  - injection Hb as <-. done.
  - injection Hb as <-. done.
  - unfold query_customer_by_name.
    destruct (query_customer_by_name_sql DB SC customer_name limit);
      [injection Hb as ->; done|discriminate].
Qed.

(** Claim C2 (approval gating). When a privileged warehouse tool's
    arguments build a statement, the tool's whole result is the
    PENDING_APPROVAL payload of the record it stages under a fresh id (with
    the tool's name and the stripped statement), the record is in the store
    afterwards, and no statement is run: the execution log is unchanged. *)
Theorem warehouse_tool_stages (c : warehouse_call) (s : state) (sql0 : string)
  (Hbuild : call_sql DB SC c = Some sql0) :
  let (pq, s') := _register_pending_query uuid4 time_time (call_tool_name c) sql0 s in
  warehouse_tool uuid4 time_time json_dumps DB SC c s = (_pending_response json_dumps pq, s') /\
  pending s' !! query_id pq = Some pq /\
  query_id pq = uuid4 (next_uuid s) /\
  tool_name pq = call_tool_name c /\
  sql pq = strip sql0 /\
  executed s' = executed s.
Proof.
  rewrite (warehouse_tool_build c s sql0 Hbuild).
  unfold stage, _register_pending_query. simpl.
  split_and!; [done|apply lookup_insert_eq|done|done|done|done].
Qed.

(** Claim C4 (idempotent cancel). For a staged [query_id], a first
    [cancel_pending_query] returns [true], a second one returns [false],
    and [execute_pending_query] after the cancel answers "No pending query
    found ..." without running anything. *)
Theorem cancel_twice_then_execute (q : string) (s : state)
  (Hstaged : is_Some (pending s !! q)) :
  let s1 := snd (cancel_pending_query q s) in
  fst (cancel_pending_query q s) = true /\
  fst (cancel_pending_query q s1) = false /\
  fst (execute_pending_query snowflake q s1) = no_pending_msg /\
  executed (snd (execute_pending_query snowflake q s1)) = executed s.
Proof.
  destruct Hstaged as [pq E].
  unfold cancel_pending_query, execute_pending_query, pop_pending. simpl.
  rewrite E, lookup_delete_eq. done.
Qed.

(** Claim C10. A [group_by] outside the four valid columns makes
    [query_transaction_summary] return the "Invalid group_by" message that
    lists them, and leaves the store (pending records, uuid draws and
    execution log) as it was. *)
Theorem summary_invalid_group_by (group_by : string) (limit : Z) (s : state)
  (Hinvalid : ~ In group_by valid_groups) :
  query_transaction_summary uuid4 time_time json_dumps DB SC group_by limit s =
  ("Invalid group_by. Must be one of: asset_symbol, customer_tier, country, transaction_type", s).
Proof.
  unfold query_transaction_summary.
  destruct (existsb (String.eqb group_by) valid_groups) eqn:E.
  - apply existsb_exists in E as [x [Hin Heq]].
    apply String.eqb_eq in Heq. subst x. contradiction.
  - reflexivity.
Qed.

End Proofs.

End StoreProofs.

(* ------------------------------------------------------------------ *)
(* Proofs about tool dispatch and turn post-processing                 *)
(* ------------------------------------------------------------------ *)

Module ChatProofs.
Import WarehouseTools Chatbot.

Section Proofs.

Variable json_loads : string -> option json.
Variable py_str : json -> string.

Lemma scan_tool_calls_pending (calls : list tool_call) (a : scan_acc) :
  pending_queries (fold_left scan_tool_call calls a) = pending_queries a.
Proof.
  revert a. induction calls as [|tc calls IH]; intros a; simpl; [done|].
  rewrite IH. done.
Qed.

Lemma scan_message_pending (a : scan_acc) (m : message) :
  pending_queries (scan_message json_loads py_str a m) =
  (pending_queries a ++ detected_payloads json_loads [m])%list.
Proof.
  destruct m as [c|c|c calls|c n id]; simpl.
  - by rewrite app_nil_r.
  - by rewrite app_nil_r.
  - by rewrite scan_tool_calls_pending, app_nil_r.
  - destruct (String.eqb n "document_search");
      destruct (_try_parse_pending_query_payload json_loads c); simpl;
      by rewrite ?app_nil_r.
Qed.

Lemma scan_pending_from (msgs : list message) (a : scan_acc) :
  pending_queries (fold_left (scan_message json_loads py_str) msgs a) =
  (pending_queries a ++ detected_payloads json_loads msgs)%list.
Proof.
  revert a. induction msgs as [|m msgs IH]; intros a; simpl.
  - by rewrite app_nil_r.
  - rewrite IH, scan_message_pending. simpl. rewrite app_nil_r, <- app_assoc. done.
Qed.

Lemma scan_pending (msgs : list message) :
  pending_queries (scan json_loads py_str msgs) = detected_payloads json_loads msgs.
Proof. unfold scan. rewrite scan_pending_from. done. Qed.

Lemma scan_message_document_search (a : scan_acc) (content tcid : string) :
  sources (scan_message json_loads py_str a (ToolMessage content "document_search" tcid)) =
  (sources a ++ document_sources json_loads py_str content)%list.
Proof.
  simpl. destruct (_try_parse_pending_query_payload json_loads content); done.
Qed.

Lemma substring_length (n : nat) (c : string) :
  (String.length (String.substring 0 n c) <= n)%nat.
Proof.
  revert n. induction c as [|ch c IH]; intros [|n]; simpl; try lia.
  specialize (IH n). lia.
Qed.

Lemma doc_source_shape (doc : json) (x : source) :
  doc_source py_str doc = Ok (Some x) ->
  exists c, src_content x = slice_to 200 c ++ "..." /\
            (String.length (slice_to 200 c) <= 200)%nat.
Proof.
  destruct doc as [| | | |l|d]; simpl; try discriminate.
  destruct (match dict_get d "page_content" with
            | Some v => v | None => JStr (py_str (JObj d)) end) as [| | |c| |];
    try discriminate.
  intros H. injection H as <-. exists c. split; [done|]. apply substring_length.
Qed.

Lemma collect_sources_in (docs : list json) (acc : list source) (x : source) :
  In x (collect_sources py_str docs acc) ->
  In x acc \/ exists doc, In doc docs /\ doc_source py_str doc = Ok (Some x).
Proof.
  revert acc. induction docs as [|d docs IH]; intros acc H; simpl in *; [by left|].
  destruct (doc_source py_str d) as [[y|]|e] eqn:E.
  - destruct (IH _ H) as [Hin|[doc [Hd Hs]]].
    + apply in_app_or in Hin as [Hin|[<-|[]]]; [by left|].
      right. exists d. split; [left|]; done.
    + right. exists doc. split; [right|]; done.
  - destruct (IH _ H) as [Hin|[doc [Hd Hs]]]; [by left|].
    right. exists doc. split; [right|]; done.
  - by left.
Qed.

Lemma collect_sources_length (docs : list json) (acc : list source) :
  (length (collect_sources py_str docs acc) <= length acc + length docs)%nat.
Proof.
  revert acc. induction docs as [|d docs IH]; intros acc; simpl; [lia|].
  destruct (doc_source py_str d) as [[y|]|e].
  - specialize (IH (acc ++ [y])%list). rewrite length_app in IH. simpl in IH. lia.
  - specialize (IH acc). lia.
  - lia.
Qed.

(** Claim C7. A [document_search] tool result adds to the turn's sources
    exactly [document_sources] of its content, which holds at most 3
    entries, each built from one of the first 3 items of the parsed list,
    with content [c[:200] + "..."]; content that does not parse, or parses
    to something other than a list, adds no source (and, the loop's
    exceptions being swallowed, the scan never fails). *)
Theorem document_search_sources (a : scan_acc) (content tcid : string) :
  let srcs := document_sources json_loads py_str content in
  sources (scan_message json_loads py_str a (ToolMessage content "document_search" tcid)) =
    (sources a ++ srcs)%list /\
  (length srcs <= 3)%nat /\
  (forall x, In x srcs -> exists docs doc c,
      json_loads content = Some (JArr docs) /\ In doc (take 3 docs) /\
      doc_source py_str doc = Ok (Some x) /\
      src_content x = slice_to 200 c ++ "..." /\
      (String.length (slice_to 200 c) <= 200)%nat) /\
  (json_loads content = None -> srcs = []) /\
  (forall v, json_loads content = Some v -> (forall docs, v <> JArr docs) -> srcs = []).
Proof.
  intros srcs. split_and!.
  - apply scan_message_document_search.
  - subst srcs. unfold document_sources.
    destruct (json_loads content) as [[| | | |docs|]|]; simpl; try lia.
    pose proof (collect_sources_length (take 3 docs) []) as H.
    rewrite length_take in H. cbn [length] in H.
    pose proof (Nat.le_min_l 3 (length docs)). lia.
  - intros x Hx. subst srcs. unfold document_sources in Hx.
    destruct (json_loads content) as [[| | | |docs|]|] eqn:E; try destruct Hx.
    destruct (collect_sources_in (take 3 docs) [] x Hx) as [[]|[doc [Hd Hs]]].
    destruct (doc_source_shape doc x Hs) as [c Hc].
    exists docs, doc, c. done.
  - intros E. subst srcs. unfold document_sources. rewrite E. done.
  - intros v E Hv. subst srcs. unfold document_sources. rewrite E.
    destruct v as [| | | |docs|]; try done. exfalso. apply (Hv docs). done.
Qed.

(** Claim C5. When a turn completes (the graph returns the thread and it is
    not empty), the result's [method] is "pending_approval" with
    [pending_queries] listing every PENDING_APPROVAL payload detected among
    the turn's tool results, in order, whenever there is at least one,
    whatever the answer text; otherwise [method] is "agent_with_tools". *)
Theorem chat_method_follows_detection (question : string) (get_state : exc (list message))
  (graph_invoke : message -> exc (list message)) (result : list message) (final : message)
  (Hinvoke : graph_invoke (HumanMessage question) = Ok result)
  (Hlast : last result = Some final) :
  let r := chat json_loads py_str question get_state graph_invoke in
  let found := detected_payloads json_loads
                 (messages_this_turn (messages_before get_state) result) in
  match found with
  | [] => method r = "agent_with_tools"
  | _ :: _ => method r = "pending_approval" /\ t_pending_queries r = Some found
  end.
Proof.
  cbn zeta. unfold chat. rewrite Hinvoke, Hlast, <- scan_pending.
  destruct (pending_queries (scan json_loads py_str
              (messages_this_turn (messages_before get_state) result))); done.
Qed.

(** The lists [chat] reports for a completed turn are those of the scan of
    the turn's messages. *)
Lemma chat_reports_scan (question : string) (get_state : exc (list message))
  (graph_invoke : message -> exc (list message)) (result : list message) (final : message)
  (Hinvoke : graph_invoke (HumanMessage question) = Ok result)
  (Hlast : last result = Some final) :
  let r := chat json_loads py_str question get_state graph_invoke in
  let a := scan json_loads py_str (messages_this_turn (messages_before get_state) result) in
  t_sources r = sources a /\
  t_warehouse_tools_used r = warehouse_tools_used a /\
  t_rag_tools_used r = rag_tools_used a /\
  (t_pending_queries r = Some (pending_queries a) \/
   (t_pending_queries r = None /\ pending_queries a = [])).
Proof.
  cbn zeta. unfold chat. rewrite Hinvoke, Hlast.
  destruct (pending_queries (scan json_loads py_str
              (messages_this_turn (messages_before get_state) result))) eqn:E;
    simpl; split_and!; try done; [right; done|left; done].
Qed.

(** Claim C6, as corrected. When the pre-turn read of the thread succeeds
    with [prior], the sources, tools used and pending queries of the turn
    are those of the messages at indices [length prior] and beyond. When
    that read raises, [messages_before] falls back to 0 and they are those
    of the whole thread, prior turns included. *)
Theorem chat_scans_from_pre_turn_count (question : string) (prior : list message)
  (graph_invoke : message -> exc (list message)) (result : list message) (final : message)
  (Hinvoke : graph_invoke (HumanMessage question) = Ok result)
  (Hlast : last result = Some final) :
  (let r := chat json_loads py_str question (Ok prior) graph_invoke in
   let a := scan json_loads py_str (drop (length prior) result) in
   t_sources r = sources a /\
   t_warehouse_tools_used r = warehouse_tools_used a /\
   t_rag_tools_used r = rag_tools_used a /\
   (t_pending_queries r = Some (pending_queries a) \/
    (t_pending_queries r = None /\ pending_queries a = []))) /\
  (forall m : string,
   let r := chat json_loads py_str question (Raise m) graph_invoke in
   let a := scan json_loads py_str result in
   t_sources r = sources a /\
   t_warehouse_tools_used r = warehouse_tools_used a /\
   t_rag_tools_used r = rag_tools_used a /\
   (t_pending_queries r = Some (pending_queries a) \/
    (t_pending_queries r = None /\ pending_queries a = []))).
Proof.
  split.
  - assert (Hturn : messages_this_turn (messages_before (Ok prior)) result =
                    drop (length prior) result).
    { unfold messages_this_turn, messages_before.
      destruct (Nat.ltb 0 (length prior)) eqn:E; [done|].
      apply Nat.ltb_ge in E. assert (length prior = 0%nat) as -> by lia. done. }
    pose proof (chat_reports_scan question (Ok prior) graph_invoke result final Hinvoke Hlast)
      as H.
    cbn zeta in *. rewrite Hturn in H. exact H.
  - intros m.
    exact (chat_reports_scan question (Raise m) graph_invoke result final Hinvoke Hlast).
Qed.

(** Claim C8, as corrected. When running the turn's graph raises [e], or
    returns no messages, [chat] returns (does not raise) the "error" result:
    the answer embeds [str(e)] in a fixed sentence, sources and tool lists
    are empty, and the dict has no "pending_queries" entry. An exception
    from the pre-turn state read is not a turn error: the turn goes on as
    if the thread were empty. *)
Theorem chat_error_result (question : string) (get_state : exc (list message))
  (graph_invoke : message -> exc (list message)) (e : string)
  (Hfail : graph_invoke (HumanMessage question) = Raise e \/
           (graph_invoke (HumanMessage question) = Ok [] /\ e = "list index out of range")) :
  chat json_loads py_str question get_state graph_invoke =
    {| answer := "I encountered an error: " ++ e ++ ". Please try rephrasing your question.";
       t_sources := []; t_warehouse_tools_used := []; t_rag_tools_used := [];
       t_pending_queries := None; method := "error" |} /\
  (forall m, chat json_loads py_str question (Raise m) graph_invoke =
             chat json_loads py_str question (Ok []) graph_invoke).
Proof.
  split.
  - unfold chat. destruct Hfail as [-> | [-> ->]]; done.
  - intros m. reflexivity.
Qed.

End Proofs.

(** Claim C3, as corrected. The payload a warehouse tool returns is
    [{"status": "PENDING_APPROVAL", "query": asdict(pq)}]; when [json.loads]
    reads back what [json.dumps] wrote, the detector returns the "query"
    object, which has exactly the four fields query_id, tool_name, sql
    (strings) and created_at (the staging time), in that order. The
    detector accepts exactly the contents that load as a dict whose
    "status" is the string "PENDING_APPROVAL" and whose "query" is a dict,
    and then returns that dict, whatever its fields. *)
Theorem pending_payload_shape (json_loads : string -> option json)
  (json_dumps : json -> string) (pq : PendingQuery)
  (Hloads : json_loads (_pending_response json_dumps pq) = Some (pending_payload pq)) :
  (exists q,
     pending_payload pq = JObj [("status", JStr "PENDING_APPROVAL"); ("query", q)] /\
     _try_parse_pending_query_payload json_loads (_pending_response json_dumps pq) = Some q /\
     q = JObj [("query_id", JStr (query_id pq)); ("tool_name", JStr (tool_name pq));
               ("sql", JStr (sql pq)); ("created_at", JNum (created_at pq))] /\
     json_keys q = ["query_id"; "tool_name"; "sql"; "created_at"]) /\
  (forall (payload : string) (v : json),
     _try_parse_pending_query_payload json_loads payload = Some v <->
     exists d q, json_loads payload = Some (JObj d) /\
                 dict_get d "status" = Some (JStr "PENDING_APPROVAL") /\
                 dict_get d "query" = Some (JObj q) /\ v = JObj q).
Proof.
  split.
  - exists (asdict pq). split_and!; [done| |done|done].
    unfold _try_parse_pending_query_payload. rewrite Hloads. done.
  - intros payload v. unfold _try_parse_pending_query_payload. split.
    + destruct (json_loads payload) as [[| | | | |d]|]; try discriminate.
      destruct (dict_get d "status") as [[| | |st| |]|] eqn:Hst; try discriminate.
      destruct (dict_get d "query") as [[| | | | |q]|] eqn:Hq; try discriminate.
      destruct (String.eqb st "PENDING_APPROVAL") eqn:E; [|discriminate].
      apply String.eqb_eq in E. subst st. intros H. injection H as <-.
      exists d, q. done.
    + intros [d [q [-> [Hst [Hq ->]]]]]. rewrite Hst, Hq. done.
Qed.

Section DispatchProofs.

Variable St : Type.
Variable tools_by_name : string -> option (json -> St -> exc string * St).

Lemma dispatch_answers (calls : list tool_call) (s : St) :
  Forall2 (fun tc out => exists c,
      out = ToolMessage c (tc_name tc) (tc_id tc) /\
      (tools_by_name (tc_name tc) = None -> c = "Tool " ++ tc_name tc ++ " not found") /\
      (forall tool, tools_by_name (tc_name tc) = Some tool -> exists si si',
         tool (tc_args tc) si = (Ok c, si') \/
         exists e, tool (tc_args tc) si = (Raise e, si') /\ c = "Error: " ++ e))
    calls (fst (dispatch St tools_by_name calls s)).
Proof.
  revert s. induction calls as [|tc calls IH]; intros s; simpl; [constructor|].
  unfold dispatch_one.
  destruct (tools_by_name (tc_name tc)) as [tool|] eqn:Et.
  - destruct (tool (tc_args tc) s) as [[r|e] s'] eqn:Er.
    + specialize (IH s'). destruct (dispatch St tools_by_name calls s') as [ms s2].
      simpl in *. constructor; [|done].
      exists r. split_and!; [done|congruence|].
      intros tool' Ht. rewrite Et in Ht. injection Ht as <-.
      exists s, s'. left. done.
    + specialize (IH s'). destruct (dispatch St tools_by_name calls s') as [ms s2].
      simpl in *. constructor; [|done].
      exists ("Error: " ++ e). split_and!; [done|congruence|].
      intros tool' Ht. rewrite Et in Ht. injection Ht as <-.
      exists s, s'. right. exists e. done.
  - specialize (IH s). destruct (dispatch St tools_by_name calls s) as [ms s2].
    simpl in *. constructor; [|done].
    eexists. split_and!; [done|done|congruence].
Qed.

(** Claim C9. For an assistant message with tool calls, [tools_node]
    returns one tool-result message per call, in order, with the call's
    name and id: "Tool <name> not found" when the name is not registered,
    the tool's result text when it returns, and "Error: <e>" when it raises
    [e]; no call makes the node fail, and the graph goes back to the
    chatbot node afterwards. *)
Theorem tools_node_answers_every_call (msgs : list message) (content : string)
  (calls : list tool_call) (s : St)
  (Hlast : last msgs = Some (AIMessage content calls)) :
  let outs := fst (tools_node St tools_by_name msgs s) in
  Forall2 (fun tc out => exists c,
      out = ToolMessage c (tc_name tc) (tc_id tc) /\
      (tools_by_name (tc_name tc) = None -> c = "Tool " ++ tc_name tc ++ " not found") /\
      (forall tool, tools_by_name (tc_name tc) = Some tool -> exists si si',
         tool (tc_args tc) si = (Ok c, si') \/
         exists e, tool (tc_args tc) si = (Raise e, si') /\ c = "Error: " ++ e))
    calls outs /\
  next_node NTools (msgs ++ outs)%list = NChatbot.
Proof.
  cbn zeta. split; [|done].
  unfold tools_node. rewrite Hlast.
  destruct calls as [|tc calls]; [constructor|].
  apply dispatch_answers.
Qed.

End DispatchProofs.

End ChatProofs.

(* ------------------------------------------------------------------ *)
(* Further properties of the store and the warehouse tools             *)
(* ------------------------------------------------------------------ *)

Module StoreFacts.
Import WarehouseTools Chatbot Views.

(** [str.strip] seen on lists of characters. *)
Lemma lstrip_list (s : string) :
  String.list_ascii_of_string (lstrip s) =
  drop_space (String.list_ascii_of_string s).
Proof.
  induction s as [|c s IH]; simpl; [done|].
  destruct (is_space c); simpl; done.
Qed.

Lemma rev_str_list (s acc : string) :
  String.list_ascii_of_string (rev_str s acc) =
  (rev (String.list_ascii_of_string s) ++ String.list_ascii_of_string acc)%list.
Proof.
  revert acc. induction s as [|c s IH]; intros acc; simpl; [done|].
  rewrite IH. simpl. rewrite <- app_assoc. done.
Qed.

Lemma list_ascii_inj (s t : string) :
  String.list_ascii_of_string s = String.list_ascii_of_string t -> s = t.
Proof.
  intros H. rewrite <- (String.string_of_list_ascii_of_string s),
    <- (String.string_of_list_ascii_of_string t), H. done.
Qed.

Lemma drop_space_idem (l : list Ascii.ascii) :
  drop_space (drop_space l) = drop_space l.
Proof.
  induction l as [|c l IH]; simpl; [done|].
  destruct (is_space c) eqn:E; [done|]. simpl. rewrite E. done.
Qed.

Lemma drop_space_suffix (l : list Ascii.ascii) :
  exists p, l = (p ++ drop_space l)%list.
Proof.
  induction l as [|c l [p Hp]]; simpl; [exists []; done|].
  destruct (is_space c); [exists (c :: p); simpl; f_equal; done|exists []; done].
Qed.

Lemma drop_space_head (l : list Ascii.ascii) (c : Ascii.ascii) (t : list Ascii.ascii) :
  drop_space l = c :: t -> is_space c = false.
Proof.
  induction l as [|d l IH]; simpl; [discriminate|].
  destruct (is_space d) eqn:E; [done|]. intros H. injection H as <- _. done.
Qed.

Lemma drop_space_keep (l : list Ascii.ascii) :
  (forall c t, l = c :: t -> is_space c = false) -> drop_space l = l.
Proof.
  destruct l as [|c l]; simpl; [done|]. intros H. rewrite (H c l eq_refl). done.
Qed.

(** [strip] on lists: drop leading, reverse, drop leading, reverse. *)
Lemma strip_list (s : string) :
  String.list_ascii_of_string (strip s) =
  rev (drop_space (rev (drop_space (String.list_ascii_of_string s)))).
Proof.
  unfold strip. rewrite rev_str_list, lstrip_list, rev_str_list, lstrip_list. simpl.
  rewrite !app_nil_r. done.
Qed.

Lemma strip_idem (s : string) : strip (strip s) = strip s.
Proof.
  apply list_ascii_inj. rewrite !strip_list.
  set (v := drop_space (String.list_ascii_of_string s)).
  set (u := drop_space (rev v)).
  assert (Hu : drop_space (rev u) = rev u).
  { apply drop_space_keep. intros c t Ht.
    destruct (drop_space_suffix (rev v)) as [p Hp]. fold u in Hp.
    assert (Hu' : u = (rev t ++ [c])%list) by (rewrite <- (rev_involutive u), Ht; done).
    assert (Hv : v = c :: rev (p ++ rev t)%list).
    { rewrite <- (rev_involutive v), Hp, Hu', app_assoc, rev_app_distr. done. }
    apply (drop_space_head (String.list_ascii_of_string s) c (rev (p ++ rev t)%list)).
    exact Hv. }
  rewrite Hu, rev_involutive. subst u. rewrite drop_space_idem. done.
Qed.

Lemma lstrip_blank (s : string) : blank s -> lstrip s = "".
Proof.
  unfold blank. induction s as [|c s IH]; simpl; [done|].
  intros H. inversion H as [|? ? Hc Hs]; subst. rewrite Hc. apply IH. done.
Qed.

Lemma split_strip_blank (s : string) : blank s -> split (strip s) = [].
Proof. intros H. unfold strip. rewrite (lstrip_blank s H). done. Qed.

Lemma upper_char_idem (c : Ascii.ascii) : upper_char (upper_char c) = upper_char c.
Proof. destruct c as [[] [] [] [] [] [] [] []]; reflexivity. Qed.

Lemma upper_idem (s : string) : upper (upper s) = upper s.
Proof. induction s as [|c s IH]; simpl; [done|]. rewrite upper_char_idem, IH. done. Qed.

Lemma truthy_upper (t : string) :
  truthy (Some (upper t)) = option_map upper (truthy (Some t)).
Proof. destruct t; done. Qed.

Lemma app_assoc_str (a b c : string) : (a ++ b) ++ c = a ++ b ++ c.
Proof. induction a as [|x a IH]; [reflexivity|exact (f_equal (String x) IH)]. Qed.

Lemma contains_app_l (a x m : string) :
  (exists p q, x = p ++ m ++ q) -> exists p q, a ++ x = p ++ m ++ q.
Proof. intros [p [q ->]]. exists (a ++ p), q. rewrite app_assoc_str. done. Qed.

Lemma contains_app_r (x b m : string) :
  (exists p q, x = p ++ m ++ q) -> exists p q, x ++ b = p ++ m ++ q.
Proof. intros [p [q ->]]. exists p, (q ++ b). rewrite !app_assoc_str. done. Qed.

Lemma contains_join (sep x m : string) (rest : list string) :
  (exists p q, x = p ++ m ++ q) -> exists p q, join sep (x :: rest) = p ++ m ++ q.
Proof.
  intros H. destruct rest as [|y rest]; [done|].
  cbn [join]. apply contains_app_r. done.
Qed.

Section Facts.

Variable uuid4 : nat -> string.
Variable time_time : nat -> Q.
Variable snowflake : string -> exec_outcome.
Variable json_dumps : json -> string.
Variables DB SC : string.

(** A call whose statement does not build leaves the store as it was. *)
Lemma warehouse_tool_no_build (c : warehouse_call) (s : state) :
  call_sql DB SC c = None -> snd (warehouse_tool uuid4 time_time json_dumps DB SC c s) = s.
Proof.
  destruct c; cbn [call_sql warehouse_tool]; intros Hb.
  - unfold query_transactions.
    destruct (query_transactions_sql DB SC customer_id customer_name asset_symbol
                transaction_type limit); [discriminate|done].
  - discriminate.
  - unfold query_transaction_summary.
    destruct (existsb (String.eqb group_by) valid_groups); [discriminate|done].
  - discriminate.
  - discriminate.
  - unfold query_customer_by_name.
    destruct (query_customer_by_name_sql DB SC customer_name limit); [discriminate|done].
Qed.

Lemma call_tool_name_listed (c : warehouse_call) : In (call_tool_name c) WAREHOUSE_TOOL_NAMES.
Proof. destruct c; simpl; tauto. Qed.


Lemma staged_by_tool_step (o : op) (s : state) :
  staged_by_tool DB SC s ->
  staged_by_tool DB SC (snd (step uuid4 time_time snowflake json_dumps DB SC o s)).
Proof.
  intros Hs. destruct o as [c|q|q|q]; simpl.
  - destruct (call_sql DB SC c) as [sql0|] eqn:Eb.
    + pose proof (StoreProofs.warehouse_tool_build uuid4 time_time json_dumps DB SC c s sql0 Eb)
        as Hw.
      rewrite Hw. unfold staged_by_tool in *. unfold stage, _register_pending_query. simpl.
      intros k pq H. destruct (decide (uuid4 (next_uuid s) = k)) as [<-|Hne].
      * rewrite lookup_insert_eq in H. injection H as <-. simpl.
        split; [done|]. exists c, sql0. done.
      * rewrite lookup_insert_ne in H by done. apply (Hs k pq H).
    + pose proof (warehouse_tool_no_build c s Eb) as Hw.
      destruct (warehouse_tool uuid4 time_time json_dumps DB SC c s) as [r s']. simpl in *.
      subst s'. done.
  - unfold execute_pending_query, pop_pending, staged_by_tool in *. simpl.
    destruct (pending s !! q); simpl;
      intros k pq H; (destruct (decide (q = k)) as [<-|Hne];
        [rewrite lookup_delete_eq in H; discriminate
        |rewrite lookup_delete_ne in H by done; apply (Hs k pq H)]).
  - unfold cancel_pending_query, pop_pending, staged_by_tool in *. simpl.
    intros k pq H. destruct (decide (q = k)) as [<-|Hne].
    + rewrite lookup_delete_eq in H. discriminate.
    + rewrite lookup_delete_ne in H by done. apply (Hs k pq H).
  - done.
Qed.

Lemma staged_by_tool_run (ops : list op) (s : state) :
  staged_by_tool DB SC s ->
  staged_by_tool DB SC (snd (run uuid4 time_time snowflake json_dumps DB SC ops s)).
Proof.
  revert s. induction ops as [|o ops IH]; intros s Hs; simpl; [done|].
  pose proof (staged_by_tool_step o s Hs) as H1.
  destruct (step uuid4 time_time snowflake json_dumps DB SC o s) as [r s1]. simpl in H1.
  pose proof (IH s1 H1) as H2.
  destruct (run uuid4 time_time snowflake json_dumps DB SC ops s1). done.
Qed.

(** X1: every record the store holds after any sequence of calls from the
    empty store sits under its own id and was staged by one of the six
    warehouse tools, under that tool's name, with the stripped statement
    the tool built. *)
Theorem store_holds_only_tool_records (ops : list op) (k : string) (pq : PendingQuery)
  (Hin : pending (snd (run uuid4 time_time snowflake json_dumps DB SC ops initial_state)) !! k
         = Some pq) :
  query_id pq = k /\ In (tool_name pq) WAREHOUSE_TOOL_NAMES /\
  exists c sql0, call_sql DB SC c = Some sql0 /\ tool_name pq = call_tool_name c /\
                 sql pq = strip sql0.
Proof.
  assert (H0 : staged_by_tool DB SC initial_state).
  { intros k' pq' H. unfold initial_state in H; cbn [pending] in H; rewrite lookup_empty in H. discriminate. }
  destruct (staged_by_tool_run ops initial_state H0 k pq Hin) as [Hid [c [sql0 [Hb [Hn Hs]]]]].
  split_and!; [done| |exists c, sql0; done].
  rewrite Hn. apply call_tool_name_listed.
Qed.

(** X2: only approvals run statements. A sequence of calls with no
    [execute_pending_query] among them (tool invocations, cancellations,
    lookups) leaves the execution log as it was. *)
Theorem only_approvals_execute (ops : list op) (s : state)
  (Hno : Forall (fun o => forall q, o <> Approve q) ops) :
  executed (snd (run uuid4 time_time snowflake json_dumps DB SC ops s)) = executed s.
Proof.
  revert s. induction Hno as [|o ops Ho Hops IH]; intros s; simpl; [done|].
  assert (H1 : executed (snd (step uuid4 time_time snowflake json_dumps DB SC o s)) = executed s).
  { destruct o as [c|q|q|q]; simpl.
    - destruct (call_sql DB SC c) as [sql0|] eqn:Eb.
      + rewrite (StoreProofs.warehouse_tool_build uuid4 time_time json_dumps DB SC c s sql0 Eb).
        done.
      + pose proof (warehouse_tool_no_build c s Eb) as Hw.
        destruct (warehouse_tool uuid4 time_time json_dumps DB SC c s). simpl in *.
        subst. done.
    - exfalso. apply (Ho q). done.
    - done.
    - done. }
  destruct (step uuid4 time_time snowflake json_dumps DB SC o s) as [r s1]. simpl in H1.
  specialize (IH s1).
  destruct (run uuid4 time_time snowflake json_dumps DB SC ops s1). simpl in *. congruence.
Qed.

(** X3: [execute_pending_query] on a staged id runs exactly the record's
    stored statement, returns the text for the warehouse's outcome (the
    rows' JSON, the no-rows message, or "Error executing query: <e>"), and
    removes the record whatever the outcome: a failed run is not retried
    by a second approval, which answers "No pending query found ...". *)
Theorem execute_consumes_record (q : string) (s : state) (pq : PendingQuery)
  (Hstaged : pending s !! q = Some pq) :
  execute_pending_query snowflake q s =
    (outcome_text (snowflake (sql pq)),
     {| pending := delete q (pending s); next_uuid := next_uuid s;
        executed := executed s ++ [pq] |}) /\
  fst (execute_pending_query snowflake q (snd (execute_pending_query snowflake q s))) =
    no_pending_msg.
Proof.
  unfold execute_pending_query, pop_pending. simpl. rewrite Hstaged. simpl.
  rewrite lookup_delete_eq. split; [|done].
  destruct (snowflake (sql pq)); done.
Qed.

(** X4: an id that is not in the store (never issued, mistyped, or already
    executed or cancelled) makes [execute_pending_query] answer "No pending
    query found ..." and [cancel_pending_query] answer [false], and both
    leave the whole state unchanged. *)
Theorem unknown_id_changes_nothing (q : string) (s : state)
  (Habsent : pending s !! q = None) :
  execute_pending_query snowflake q s = (no_pending_msg, s) /\
  cancel_pending_query q s = (false, s).
Proof.
  destruct s as [p n e]. simpl in Habsent.
  unfold execute_pending_query, cancel_pending_query, pop_pending. simpl.
  rewrite Habsent, delete_id by done. done.
Qed.

Section Injective.

Hypothesis uuid4_inj : forall i j, uuid4 i = uuid4 j -> i = j.

Lemma reachable_fresh (ops : list op) :
  let s := snd (run uuid4 time_time snowflake json_dumps DB SC ops initial_state) in
  pending s !! uuid4 (next_uuid s) = None.
Proof.
  intros s.
  assert (Hs : inv uuid4 s).
  { apply (StoreProofs.run_inv uuid4 time_time snowflake json_dumps DB SC uuid4_inj).
    apply StoreProofs.inv_initial. }
  destruct (pending s !! uuid4 (next_uuid s)) as [pq|] eqn:E; [|done].
  exfalso. destruct (inv_keys uuid4 s Hs _ pq E) as [_ [j [Hj Hu]]].
  apply uuid4_inj in Hu. lia.
Qed.

(** X5: staging never overwrites a record. In any store reachable from the
    empty one, [_register_pending_query] files the new record under an id
    not in use, so the store grows by exactly one record and every other
    id keeps its record. *)
Theorem register_adds_one_record (ops : list op) (n sql0 : string) :
  let s := snd (run uuid4 time_time snowflake json_dumps DB SC ops initial_state) in
  let (pq, s') := _register_pending_query uuid4 time_time n sql0 s in
  pending s !! query_id pq = None /\
  size (pending s') = S (size (pending s)) /\
  (forall k, k <> query_id pq -> pending s' !! k = pending s !! k).
Proof.
  intros s. pose proof (reachable_fresh ops) as Hf. fold s in Hf.
  unfold _register_pending_query. simpl.
  split_and!; [done|apply map_size_insert_None; done|].
  intros k Hk. rewrite lookup_insert_ne by congruence. done.
Qed.

(** X6: cancelling a query right after staging it undoes the staging. In
    any store reachable from the empty one, [cancel_pending_query] on the
    id [_register_pending_query] just issued answers [true] and gives back
    the store it started from (only the uuid draw counter has moved). *)
Theorem register_then_cancel (ops : list op) (n sql0 : string) :
  let s := snd (run uuid4 time_time snowflake json_dumps DB SC ops initial_state) in
  let (pq, s1) := _register_pending_query uuid4 time_time n sql0 s in
  cancel_pending_query (query_id pq) s1 =
    (true, {| pending := pending s; next_uuid := S (next_uuid s); executed := executed s |}).
Proof.
  intros s. pose proof (reachable_fresh ops) as Hf. fold s in Hf.
  unfold _register_pending_query, cancel_pending_query, pop_pending. simpl.
  rewrite lookup_insert_eq, delete_insert_id by done. done.
Qed.

End Injective.

(** X7: the statement filed for approval is already stripped: it neither
    begins nor ends with whitespace, so stripping it again (as the CLI does
    before printing it) changes nothing. *)
Theorem registered_sql_stripped (n sql0 : string) (s : state) :
  let (pq, _) := _register_pending_query uuid4 time_time n sql0 s in
  strip (sql pq) = sql pq.
Proof. simpl. apply strip_idem. Qed.

(** X8: blank customer names. An empty [customer_name] is no filter for
    [query_transactions] (the same result as passing none), but a non-empty
    name made only of whitespace makes it answer "Error preparing
    transactions query: list index out of range" without staging anything;
    [query_customer_by_name] answers "Error preparing customer search
    query: list index out of range" for every blank name, the empty one
    included, and stages nothing. *)
Theorem blank_customer_name (name : string) (cid asym ttype : option string)
  (limit : Z) (s : state) (Hblank : blank name) :
  query_customer_by_name uuid4 time_time json_dumps DB SC name limit s =
    ("Error preparing customer search query: list index out of range", s) /\
  (name <> "" ->
   query_transactions uuid4 time_time json_dumps DB SC cid (Some name) asym ttype limit s =
     ("Error preparing transactions query: list index out of range", s)) /\
  query_transactions uuid4 time_time json_dumps DB SC cid (Some "") asym ttype limit s =
    query_transactions uuid4 time_time json_dumps DB SC cid None asym ttype limit s.
Proof.
  pose proof (split_strip_blank name Hblank) as Hs.
  split_and!.
  - unfold query_customer_by_name, query_customer_by_name_sql. rewrite Hs. done.
  - intros Hne. unfold query_transactions, query_transactions_sql.
    assert (Ht : truthy (Some name) = Some name).
    { unfold truthy. destruct (String.eqb name "") eqn:E; [|done].
      apply String.eqb_eq in E. contradiction. }
    rewrite Ht. unfold transactions_name_condition. rewrite Hs. done.
  - done.
Qed.

(** X9: the transaction type filter ignores letter case: [query_transactions]
    with a [transaction_type] and with its upper-cased form gives the same
    result and the same store. *)
Theorem transaction_type_case_insensitive (cid cname asym : option string) (t : string)
  (limit : Z) (s : state) :
  query_transactions uuid4 time_time json_dumps DB SC cid cname asym (Some (upper t)) limit s =
  query_transactions uuid4 time_time json_dumps DB SC cid cname asym (Some t) limit s.
Proof.
  unfold query_transactions, query_transactions_sql, opt_cond.
  rewrite truthy_upper. destruct (truthy (Some t)); simpl; [rewrite upper_idem|]; done.
Qed.

(** X10: a negative [days] is written after the literal minus sign of the
    date window, so the statements of [query_asset_prices] and
    [query_price_trends] contain "DATEADD(day, --", where SQL starts a line
    comment that hides the rest of that line. *)
Theorem negative_days_start_comment (asym atype : option string) (sym : string)
  (days limit : Z) (Hneg : (days < 0)%Z) :
  (exists pre post, query_asset_prices_sql DB SC asym atype days limit =
                    pre ++ "DATEADD(day, --" ++ post) /\
  (exists pre post, query_price_trends_sql DB SC sym days =
                    pre ++ "DATEADD(day, --" ++ post).
Proof.
  destruct days as [|p|p]; try lia.
  split.
  - unfold query_asset_prices_sql.
    do 3 apply contains_app_l. apply contains_app_r. apply contains_app_l.
    cbn [app]. apply contains_join.
    exists "observed_at >= ", (pretty (Npos p) ++ ", CURRENT_DATE())"). reflexivity.
  - unfold query_price_trends_sql.
    do 4 apply contains_app_l.
    exists "'
            AND observed_at >= ", (pretty (Npos p) ++ ", CURRENT_DATE())
        ORDER BY observed_at ASC
        "). reflexivity.
Qed.

End Facts.

End StoreFacts.

(* ------------------------------------------------------------------ *)
(* Further properties of tool dispatch and turn post-processing        *)
(* ------------------------------------------------------------------ *)

Module TurnFacts.
Import WarehouseTools Chatbot Views.

Section Dispatch.

Variable St : Type.
Variable tools_by_name : string -> option (json -> St -> exc string * St).

Lemma dispatch_length (calls : list tool_call) (s : St) :
  length (fst (dispatch St tools_by_name calls s)) = length calls.
Proof.
  revert s. induction calls as [|tc calls IH]; intros s; simpl; [done|].
  destruct (dispatch_one St tools_by_name tc s) as [m s1].
  specialize (IH s1). destruct (dispatch St tools_by_name calls s1). simpl in *. lia.
Qed.

(** X11: [tools_node] and [route_query] agree. The tools node produces no
    message exactly when [route_query] sends the thread to the end (the
    last message is not an assistant message with tool calls, or the
    thread is empty), and then no tool runs and the tools' state is left
    as it was. *)
Theorem tools_node_idle_iff_route_end (msgs : list message) (s : St) :
  (fst (tools_node St tools_by_name msgs s) = [] <-> route_query msgs = NEnd) /\
  (route_query msgs = NEnd -> tools_node St tools_by_name msgs s = ([], s)).
Proof.
  unfold tools_node, route_query.
  destruct (last msgs) as [[c|c|c calls|c n i]|]; try (split; [split; done|done]).
  destruct calls as [|tc calls]; [split; [split; done|done]|].
  pose proof (dispatch_length (tc :: calls) s) as H.
  split; [split|]; try discriminate.
  intros Hnil. rewrite Hnil in H. discriminate.
Qed.

End Dispatch.

Section Scan.

Variable json_loads : string -> option json.
Variable py_str : json -> string.

Lemma fold_tool_calls_fields (calls : list tool_call) (a : scan_acc) :
  sources (fold_left scan_tool_call calls a) = sources a /\
  warehouse_tools_used (fold_left scan_tool_call calls a) =
    (warehouse_tools_used a ++ List.filter is_warehouse (map tc_name calls))%list /\
  rag_tools_used (fold_left scan_tool_call calls a) =
    (rag_tools_used a ++ List.filter (fun n => String.eqb n "document_search")
                                     (map tc_name calls))%list.
Proof.
  revert a. induction calls as [|tc calls IH]; intros a; cbn [fold_left map List.filter].
  - rewrite !app_nil_r. done.
  - destruct (IH (scan_tool_call a tc)) as [H1 [H2 H3]].
    rewrite H1, H2, H3. unfold is_warehouse, scan_tool_call.
    cbn [sources warehouse_tools_used rag_tools_used].
    destruct (existsb (String.eqb (tc_name tc)) WAREHOUSE_TOOL_NAMES);
      destruct (String.eqb (tc_name tc) "document_search");
      rewrite <- ?app_assoc; done.
Qed.

Lemma scan_message_wh (a : scan_acc) (m : message) :
  warehouse_tools_used (scan_message json_loads py_str a m) =
  (warehouse_tools_used a ++ List.filter is_warehouse (call_names [m]))%list.
Proof.
  destruct m as [c|c|c calls|c n i]; simpl; rewrite ?app_nil_r; try done.
  - destruct (fold_tool_calls_fields calls a) as [_ [H _]]. done.
  - destruct (String.eqb n "document_search");
      destruct (_try_parse_pending_query_payload json_loads c); done.
Qed.

Lemma scan_message_sources (a : scan_acc) (m : message) :
  sources (scan_message json_loads py_str a m) =
  (sources a ++ flat_map (document_sources json_loads py_str)
                         (document_search_contents [m]))%list.
Proof.
  destruct m as [c|c|c calls|c n i]; simpl; rewrite ?app_nil_r; try done.
  - destruct (fold_tool_calls_fields calls a) as [H _]. done.
  - destruct (String.eqb n "document_search");
      destruct (_try_parse_pending_query_payload json_loads c); simpl;
      rewrite ?app_nil_r; done.
Qed.

Lemma filter_nil_iff {A} (f : A -> bool) (l : list A) :
  List.filter f l = [] <-> forall x, In x l -> f x = false.
Proof.
  induction l as [|x l IH]; simpl; [split; [done|intros _; done]|].
  destruct (f x) eqn:E; split.
  - discriminate.
  - intros H. rewrite (H x (or_introl eq_refl)) in E. discriminate.
  - intros H y [<-|Hy]; [done|]. apply IH; done.
  - intros H. apply IH. intros y Hy. apply H. right. done.
Qed.

Lemma no_ds_filter (l : list string) :
  List.filter (fun n => String.eqb n "document_search") l = [] <-> ~ In "document_search" l.
Proof.
  rewrite filter_nil_iff. split.
  - intros H Hin. specialize (H _ Hin). rewrite String.eqb_refl in H. discriminate.
  - intros H x Hx. destruct (String.eqb x "document_search") eqn:E; [|done].
    apply String.eqb_eq in E. subst. contradiction.
Qed.

Lemma existsb_ds_nonempty (l : list string) :
  existsb (String.eqb "document_search") l = true -> l <> [].
Proof. destruct l; [discriminate|done]. Qed.

Lemma scan_message_rag (a : scan_acc) (m : message) :
  (Forall (eq "document_search") (rag_tools_used a) ->
   Forall (eq "document_search") (rag_tools_used (scan_message json_loads py_str a m))) /\
  (rag_tools_used (scan_message json_loads py_str a m) = [] <->
   rag_tools_used a = [] /\ ~ In "document_search" (call_names [m]) /\
   ~ In "document_search" (result_names [m])).
Proof.
  destruct m as [c|c|c calls|c n i];
    cbn [scan_message call_names result_names flat_map app rag_tools_used].
  - tauto.
  - tauto.
  - destruct (fold_tool_calls_fields calls a) as [_ [_ H]]. rewrite H, app_nil_r.
    split.
    + intros Ha. apply Forall_app. split; [done|].
      apply List.Forall_forall. intros x Hx. apply filter_In in Hx as [_ Hx].
      apply String.eqb_eq in Hx. done.
    + pose proof (no_ds_filter (map tc_name calls)) as Hf.
      pose proof (app_eq_nil (rag_tools_used a)
                    (List.filter (fun n => String.eqb n "document_search") (map tc_name calls))).
      split; [intros Hn; split_and!; tauto|].
      intros [H1 [H2 _]]. rewrite H1. apply Hf. done.
  - assert (Hpend : forall b : scan_acc,
              rag_tools_used (match _try_parse_pending_query_payload json_loads c with
                              | Some pq =>
                                  {| sources := sources b;
                                     warehouse_tools_used := warehouse_tools_used b;
                                     rag_tools_used := rag_tools_used b;
                                     pending_queries := pending_queries b ++ [pq] |}
                              | None => b end) = rag_tools_used b).
    { intros b. destruct (_try_parse_pending_query_payload json_loads c); done. }
    rewrite Hpend.
    destruct (String.eqb n "document_search") eqn:En; cbn [rag_tools_used].
    + apply String.eqb_eq in En. subst n.
      destruct (existsb (String.eqb "document_search") (rag_tools_used a)) eqn:Ex.
      * split; [done|]. split; [intros H; exfalso; apply (existsb_ds_nonempty _ Ex); done|].
        intros [_ [_ H]]. exfalso. apply H. left. done.
      * split; [intros Ha; apply Forall_app; split; [done|constructor; done]|].
        split; [intros H; exfalso; apply app_eq_nil in H as [_ H]; discriminate|].
        intros [_ [_ H]]. exfalso. apply H. left. done.
    + split; [done|]. split; [intros H; split_and!; [done|simpl; tauto|]|intros [H _]; done].
      simpl. intros [Hn|[]]. subst n. rewrite String.eqb_refl in En. discriminate.
Qed.

Lemma call_names_cons (m : message) (msgs : list message) :
  call_names (m :: msgs) = (call_names [m] ++ call_names msgs)%list.
Proof. unfold call_names. simpl. rewrite app_nil_r. done. Qed.

Lemma result_names_cons (m : message) (msgs : list message) :
  result_names (m :: msgs) = (result_names [m] ++ result_names msgs)%list.
Proof. unfold result_names. simpl. rewrite app_nil_r. done. Qed.

Lemma dsc_cons (m : message) (msgs : list message) :
  document_search_contents (m :: msgs) =
  (document_search_contents [m] ++ document_search_contents msgs)%list.
Proof. unfold document_search_contents. simpl. rewrite app_nil_r. done. Qed.

(** X12: the [warehouse_tools_used] of a turn lists the warehouse tools the
    assistant called in the scanned messages, one entry per call, in the
    order of the calls (a tool called twice is listed twice); calls of
    other tools are not listed. *)
Theorem turn_warehouse_tools_used (msgs : list message) :
  warehouse_tools_used (scan json_loads py_str msgs) =
  List.filter is_warehouse (call_names msgs).
Proof.
  unfold scan.
  enough (H : forall a, warehouse_tools_used (fold_left (scan_message json_loads py_str) msgs a) =
                        (warehouse_tools_used a ++ List.filter is_warehouse (call_names msgs))%list)
    by apply H.
  induction msgs as [|m msgs IH]; intros a; cbn [fold_left]; [rewrite app_nil_r; done|].
  rewrite IH, scan_message_wh, (call_names_cons m msgs), List.filter_app, app_assoc. done.
Qed.

(** X13: the [sources] of a turn are the sources of its [document_search]
    results, in order: the [document_sources] of each such result's
    content, concatenated. The results of other tools never add a
    source. *)
Theorem turn_sources_from_document_search (msgs : list message) :
  sources (scan json_loads py_str msgs) =
  flat_map (document_sources json_loads py_str) (document_search_contents msgs).
Proof.
  unfold scan.
  enough (H : forall a, sources (fold_left (scan_message json_loads py_str) msgs a) =
                        (sources a ++ flat_map (document_sources json_loads py_str)
                                               (document_search_contents msgs))%list)
    by apply H.
  induction msgs as [|m msgs IH]; intros a; cbn [fold_left]; [rewrite app_nil_r; done|].
  rewrite IH, scan_message_sources, (dsc_cons m msgs), flat_map_app, app_assoc. done.
Qed.

(** X14: the [rag_tools_used] of a turn only ever holds "document_search",
    and it is empty exactly when the scanned messages neither call
    [document_search] nor hold a [document_search] result. *)
Theorem turn_rag_tools_used (msgs : list message) :
  Forall (eq "document_search") (rag_tools_used (scan json_loads py_str msgs)) /\
  (rag_tools_used (scan json_loads py_str msgs) = [] <->
   ~ In "document_search" (call_names msgs) /\ ~ In "document_search" (result_names msgs)).
Proof.
  unfold scan.
  enough (H : forall a,
    (Forall (eq "document_search") (rag_tools_used a) ->
     Forall (eq "document_search")
       (rag_tools_used (fold_left (scan_message json_loads py_str) msgs a))) /\
    (rag_tools_used (fold_left (scan_message json_loads py_str) msgs a) = [] <->
     rag_tools_used a = [] /\ ~ In "document_search" (call_names msgs) /\
     ~ In "document_search" (result_names msgs))).
  { destruct (H empty_acc) as [H1 H2]. split; [apply H1; constructor|].
    rewrite H2. simpl. split; [intros [_ H3]; done|intros H3; split; done]. }
  induction msgs as [|m msgs IH]; intros a; cbn [fold_left].
  - unfold call_names, result_names. simpl. tauto.
  - destruct (IH (scan_message json_loads py_str a m)) as [IH1 IH2].
    destruct (scan_message_rag a m) as [S1 S2].
    split; [intros Ha; apply IH1, S1, Ha|].
    rewrite IH2, S2, (call_names_cons m msgs), (result_names_cons m msgs), !in_app_iff.
    tauto.
Qed.

Lemma collect_sources_raise (pre post : list json) (d : json) (e : string) (acc : list source) :
  doc_source py_str d = Raise e ->
  collect_sources py_str (pre ++ d :: post) acc = collect_sources py_str pre acc.
Proof.
  intros Hd. revert acc. induction pre as [|x pre IH]; intros acc; simpl.
  - rewrite Hd. done.
  - destruct (doc_source py_str x) as [[y|]|e']; [apply IH|apply IH|done].
Qed.

(** X15: a [document_search] item among the first three whose
    "page_content" is not a string (slicing it raises) ends the collection
    of sources for that result: the result contributes only the sources of
    the items before it, and the later items are not looked at. *)
Theorem document_sources_stop_at_bad_item (content : string) (pre post : list json)
  (items : list (string * json)) (v : json)
  (Hloads : json_loads content = Some (JArr (pre ++ JObj items :: post)))
  (Hfirst3 : (length pre < 3)%nat)
  (Hpage : dict_get items "page_content" = Some v)
  (Hnotstr : forall c, v <> JStr c) :
  document_sources json_loads py_str content = collect_sources py_str pre [].
Proof.
  unfold document_sources. rewrite Hloads.
  rewrite take_app, take_ge by lia.
  destruct (3 - length pre)%nat as [|k] eqn:Ek; [lia|]. simpl.
  apply (collect_sources_raise pre (take k post) (JObj items) "TypeError").
  simpl. rewrite Hpage. destruct v; try done. exfalso. eapply Hnotstr. done.
Qed.

End Scan.

End TurnFacts.

(* ------------------------------------------------------------------ *)
(* Properties of the approval front ends                                *)
(* ------------------------------------------------------------------ *)

Module FrontFacts.
Import WarehouseTools Chatbot Frontends Views.

Lemma only_at_refl (ids : list string) (s : state) : only_at ids s s.
Proof.
  split; [done|]. split; [done|]. exists []. rewrite app_nil_r. split; [done|constructor].
Qed.

Lemma only_at_trans (ids : list string) (s1 s2 s3 : state) :
  only_at ids s1 s2 -> only_at ids s2 s3 -> only_at ids s1 s3.
Proof.
  intros [A1 [B1 [l1 [C1 D1]]]] [A2 [B2 [l2 [C2 D2]]]].
  split; [intros k Hk; rewrite A2, A1 by done; done|].
  split; [congruence|].
  exists (l1 ++ l2)%list. split; [rewrite C2, C1, app_assoc; done|].
  apply Forall_app. split; done.
Qed.

Lemma only_at_mono (ids ids' : list string) (s s' : state) :
  incl ids ids' -> only_at ids s s' -> only_at ids' s s'.
Proof.
  intros Hi [A [B [l [C D]]]].
  split; [intros k Hk; apply A; intros Hin; apply Hk, Hi, Hin|].
  split; [done|]. exists l. split; [done|].
  eapply List.Forall_impl; [|exact D]. intros p Hp. apply Hi, Hp.
Qed.

Lemma only_at_app (ids1 ids2 : list string) (s s1 s' : state) :
  only_at ids1 s s1 -> only_at ids2 s1 s' -> only_at (ids1 ++ ids2) s s'.
Proof.
  intros H1 H2. apply (only_at_trans _ _ s1).
  - eapply only_at_mono; [|exact H1]. intros x Hx. apply in_app_iff. left. done.
  - eapply only_at_mono; [|exact H2]. intros x Hx. apply in_app_iff. right. done.
Qed.

Lemma listed_ids_cons (pq : json) (pqs : list json) :
  listed_ids (pq :: pqs) = (listed_ids [pq] ++ listed_ids pqs)%list.
Proof. unfold listed_ids. simpl. rewrite app_nil_r. done. Qed.

Lemma cancel_query_str (k : string) (s : state) :
  cancel_query (JStr k) s =
  (Ok (match pending s !! k with Some _ => true | None => false end),
   {| pending := delete k (pending s); next_uuid := next_uuid s; executed := executed s |}).
Proof.
  unfold cancel_query, cancel_pending_query, pop_pending. cbn [store_key].
  destruct (pending s !! k); reflexivity.
Qed.

(** Deleting one id from a keyed store. *)
Lemma delete_facts (k : string) (s : state) (l : list PendingQuery) :
  keyed s ->
  (l = [] \/ exists pq, pending s !! k = Some pq /\ l = [pq]) ->
  let s' := {| pending := delete k (pending s); next_uuid := next_uuid s;
               executed := (executed s ++ l)%list |} in
  only_at [k] s s' /\ keyed s' /\
  (forall k', pending s !! k' = None -> pending s' !! k' = None) /\
  pending s' !! k = None.
Proof.
  intros Hk Hl. cbn zeta. unfold only_at, keyed in *. cbn [pending next_uuid executed].
  split_and!.
  - intros k' Hk'. rewrite lookup_delete_ne; [done|]. intros ->. apply Hk'. left. done.
  - done.
  - exists l. split; [done|]. destruct Hl as [->|[pq [Hpq ->]]]; [constructor|].
    apply Forall_singleton. rewrite (Hk _ _ Hpq). left. done.
  - intros k' pq Hpq. destruct (decide (k = k')) as [<-|Hne].
    + rewrite lookup_delete_eq in Hpq. discriminate.
    + rewrite lookup_delete_ne in Hpq by done. apply Hk. done.
  - intros k' Hnone. destruct (decide (k = k')) as [<-|Hne].
    + apply lookup_delete_eq.
    + rewrite lookup_delete_ne by done. done.
  - apply lookup_delete_eq.
Qed.

Section Loop.

Variable snowflake : string -> exec_outcome.

Lemma execute_approved_str (k : string) (s : state) :
  execute_approved_query snowflake (JStr k) s =
  (Ok (match pending s !! k with
       | Some pq => outcome_text (snowflake (sql pq)) | None => no_pending_msg end),
   {| pending := delete k (pending s); next_uuid := next_uuid s;
      executed := (executed s ++ match pending s !! k with
                                 | Some pq => [pq] | None => [] end)%list |}).
Proof.
  unfold execute_approved_query, execute_pending_query, pop_pending. cbn [store_key].
  destruct (pending s !! k); [reflexivity|].
  rewrite app_nil_r. reflexivity.
Qed.

(** The facts one call of [execute_approved_query] or [cancel_query]
    keeps. *)
Lemma approved_call_facts (qid : json) (s s1 : state) :
  keyed s ->
  snd (execute_approved_query snowflake qid s) = s1 \/ snd (cancel_query qid s) = s1 ->
  only_at (key_ids qid) s s1 /\ keyed s1 /\
  (forall k', pending s !! k' = None -> pending s1 !! k' = None) /\
  (forall k, qid = JStr k -> pending s1 !! k = None).
Proof.
  intros Hk Hs1. destruct qid as [| b | q | k | l | d];
    try (cbn in Hs1; destruct Hs1 as [<-|<-];
         (split_and!; [apply only_at_refl|done|auto|intros ? ?; discriminate])).
  cbn [key_ids].
  destruct Hs1 as [Hs1|Hs1].
  - rewrite execute_approved_str in Hs1. cbn [snd] in Hs1. subst s1.
    destruct (delete_facts k s (match pending s !! k with Some pq => [pq] | None => [] end) Hk)
      as [A [B [C D]]].
    { destruct (pending s !! k) as [pq|]; [right; exists pq; done|left; done]. }
    split_and!; try done. intros k' Hk'. injection Hk' as <-. done.
  - rewrite cancel_query_str in Hs1. cbn [snd] in Hs1. subst s1.
    destruct (delete_facts k s [] Hk (or_introl eq_refl)) as [A [B [C D]]].
    rewrite app_nil_r in A, B, C, D.
    split_and!; try done. intros k' Hk'. injection Hk' as <-. done.
Qed.

Lemma json_truthy_str (k : string) : k <> "" -> json_truthy (JStr k) = true.
Proof.
  intros Hk. cbn. destruct (String.eqb k "") eqn:E; [|done].
  apply String.eqb_eq in E. contradiction.
Qed.

(** X16: in a store whose records sit under their own ids (as in every
    store reachable from the empty one), the approval loop of the
    command-line front end changes the store
    only at the [query_id]s of the payloads it is given: no uuid is
    drawn, no query is staged, the records of the other ids stay as they
    were, and the statements it runs are those of records under a listed
    id. When it completes, every payload it showed (a dict whose
    [query_id] and [sql] are non-empty strings) has left the store,
    whether approved (executed) or not (cancelled). *)
Theorem approval_loop_touches_only_listed (pqs : list json) (inputs : list string)
  (s : state) (acc : list executed_payload) r s' rest
  (Hkeyed : keyed s)
  (Hrun : approval_loop snowflake pqs inputs s acc = (r, s', rest)) :
  only_at (listed_ids pqs) s s' /\
  (forall k, pending s !! k = None -> pending s' !! k = None) /\
  (forall l, r = Ok l ->
   forall d k sq, In (JObj d) pqs ->
   dict_get d "query_id" = Some (JStr k) -> k <> "" ->
   dict_get d "sql" = Some (JStr sq) -> sq <> "" ->
   pending s' !! k = None).
Proof.
  enough (H : only_at (listed_ids pqs) s s' /\ keyed s' /\
              (forall k, pending s !! k = None -> pending s' !! k = None) /\
              (forall l, r = Ok l ->
               forall d k sq, In (JObj d) pqs ->
               dict_get d "query_id" = Some (JStr k) -> k <> "" ->
               dict_get d "sql" = Some (JStr sq) -> sq <> "" ->
               pending s' !! k = None)) by tauto.
  revert inputs s acc r s' rest Hkeyed Hrun.
  induction pqs as [|pq pqs IH]; intros inputs s acc r s' rest Hkeyed Hrun;
    cbn [approval_loop] in Hrun.
  - injection Hrun as <- <- <-.
    split_and!; [apply only_at_refl|done|done|intros ? ? ? ? ? []].
  - destruct pq as [| b | q | k0 | l0 | d];
      try (injection Hrun as <- <- <-;
           split_and!; [apply only_at_refl|done|done|intros ? ?; discriminate]).
    rewrite listed_ids_cons.
    (* the step on the head payload, then the rest of the loop *)
    assert (Hskip : forall inputs1 s1,
              only_at (listed_ids [JObj d]) s s1 -> keyed s1 ->
              (forall k, pending s !! k = None -> pending s1 !! k = None) ->
              (forall k sq, dict_get d "query_id" = Some (JStr k) -> k <> "" ->
                            dict_get d "sql" = Some (JStr sq) -> sq <> "" ->
                            pending s1 !! k = None) ->
              forall acc1, approval_loop snowflake pqs inputs1 s1 acc1 = (r, s', rest) ->
              only_at (listed_ids [JObj d] ++ listed_ids pqs) s s' /\ keyed s' /\
              (forall k, pending s !! k = None -> pending s' !! k = None) /\
              (forall l, r = Ok l ->
               forall d' k sq, In (JObj d') (JObj d :: pqs) ->
               dict_get d' "query_id" = Some (JStr k) -> k <> "" ->
               dict_get d' "sql" = Some (JStr sq) -> sq <> "" ->
               pending s' !! k = None)).
    { intros inputs1 s1 A1 B1 C1 D1 acc1 Hrun1.
      destruct (IH inputs1 s1 acc1 r s' rest B1 Hrun1) as [A2 [B2 [C2 D2]]].
      split_and!; [eapply only_at_app; eauto|done|auto|].
      intros l Hl d' k sq [Heq|Hin] Hq Hk Hs Hsq.
      - injection Heq as <-. apply C2. eapply D1; eauto.
      - eapply D2; eauto. }
    assert (Hraise : forall e s1,
              only_at (listed_ids [JObj d]) s s1 -> keyed s1 ->
              (forall k, pending s !! k = None -> pending s1 !! k = None) ->
              r = Raise e -> s' = s1 ->
              only_at (listed_ids [JObj d] ++ listed_ids pqs) s s' /\ keyed s' /\
              (forall k, pending s !! k = None -> pending s' !! k = None) /\
              (forall l, r = Ok l ->
               forall d' k sq, In (JObj d') (JObj d :: pqs) ->
               dict_get d' "query_id" = Some (JStr k) -> k <> "" ->
               dict_get d' "sql" = Some (JStr sq) -> sq <> "" ->
               pending s' !! k = None)).
    { intros e s1 A1 B1 C1 -> ->. split_and!; [|done|auto|intros ? ?; discriminate].
      eapply only_at_mono; [|exact A1]. intros x Hx. apply in_app_iff. left. done. }
    assert (Hnone : forall k sq, dict_get d "query_id" = Some (JStr k) -> k <> "" ->
                                 dict_get d "sql" = Some (JStr sq) -> sq <> "" ->
                                 json_truthy (JStr k) && json_truthy (JStr sq) = true).
    { intros k sq _ Hk _ Hsq. rewrite !json_truthy_str by done. done. }
    destruct (dict_get d "query_id") as [qid|] eqn:Hq;
      [destruct (dict_get d "sql") as [sq|] eqn:Hs|].
    + assert (Hl : listed_ids [JObj d] = key_ids qid).
      { unfold listed_ids. cbn [flat_map]. rewrite Hq. apply app_nil_r. }
      rewrite Hl in Hskip, Hraise. rewrite Hl.
      destruct (json_truthy qid && json_truthy sq) eqn:Ht.
      * destruct sq as [| | | sql0 | |];
          try (injection Hrun as <- <- <-;
               apply (Hraise "object has no attribute 'strip'" s);
               [apply only_at_refl|done|done|done|done]).
        destruct inputs as [|ans inputs'].
        { injection Hrun as <- <- <-.
          apply (Hraise "EOF when reading a line" s);
            [apply only_at_refl|done|done|done|done]. }
        destruct (approves ans).
        -- destruct (execute_approved_query snowflake qid s) as [[x|e] s1] eqn:He.
           ++ destruct (approved_call_facts qid s s1 Hkeyed) as [A1 [B1 [C1 D1]]].
              { left. rewrite He. done. }
              eapply (Hskip inputs' s1); eauto.
              intros k sq' Hq' _ _ _. injection Hq' as Hq'. apply D1. done.
           ++ injection Hrun as <- <- <-.
              destruct (approved_call_facts qid s s1 Hkeyed) as [A1 [B1 [C1 D1]]].
              { left. rewrite He. done. }
              eapply (Hraise e s1); eauto.
        -- destruct (cancel_query qid s) as [[x|e] s1] eqn:He.
           ++ destruct (approved_call_facts qid s s1 Hkeyed) as [A1 [B1 [C1 D1]]].
              { right. rewrite He. done. }
              eapply (Hskip inputs' s1); eauto.
              intros k sq' Hq' _ _ _. injection Hq' as Hq'. apply D1. done.
           ++ injection Hrun as <- <- <-.
              destruct (approved_call_facts qid s s1 Hkeyed) as [A1 [B1 [C1 D1]]].
              { right. rewrite He. done. }
              eapply (Hraise e s1); eauto.
      * eapply (Hskip inputs s); eauto; [apply only_at_refl|].
        intros k sq' Hq' Hk Hs' Hsq.
        injection Hq' as Hq'. injection Hs' as Hs'. subst qid sq.
        rewrite (Hnone k sq' eq_refl Hk eq_refl Hsq) in Ht. discriminate.
    + eapply (Hskip inputs s); eauto.
      * apply only_at_refl.
      * intros k sq' _ _ Hs' _. discriminate.
    + eapply (Hskip inputs s); eauto.
      * apply only_at_refl.
      * intros k sq' Hq' _ _ _. discriminate.
Qed.

Lemma approval_loop_asdict (pq : PendingQuery) (rest : list json) (a : string)
  (ins : list string) (s : state) (acc : list executed_payload) :
  query_id pq <> "" -> sql pq <> "" ->
  approval_loop snowflake (asdict pq :: rest) (a :: ins) s acc =
  if approves a then
    match execute_approved_query snowflake (JStr (query_id pq)) s with
    | (Raise e, s') => (Raise e, s', ins)
    | (Ok r, s') =>
        approval_loop snowflake rest ins s'
          (acc ++ [{| ep_query_id := JStr (query_id pq); ep_tool_name := Some (JStr (tool_name pq));
                      ep_sql := sql pq; ep_result := r |}])
    end
  else
    match cancel_query (JStr (query_id pq)) s with
    | (Raise e, s') => (Raise e, s', ins)
    | (Ok _, s') => approval_loop snowflake rest ins s' acc
    end.
Proof.
  intros H1 H2. unfold asdict. cbn [approval_loop].
  cbv [dict_get String.eqb Ascii.eqb Bool.eqb].
  rewrite !json_truthy_str by done. reflexivity.
Qed.

Lemma approved_cons (pq : PendingQuery) (pqs : list PendingQuery) (a : string)
  (answers : list string) :
  approved (pq :: pqs) (a :: answers) =
  ((if approves a then [pq] else []) ++ approved pqs answers)%list.
Proof.
  unfold approved. cbn [combine List.filter snd]. destruct (approves a); reflexivity.
Qed.

(** X17: run on the records it was handed (each staged in the store under
    its own id, the ids distinct and non-empty, the statements non-empty)
    and one answer per record, the approval loop completes, leaves the
    further input lines unread, returns one executed entry per approved
    record, in order (its id, tool name, statement and the warehouse's
    answer), runs exactly the approved statements in order, removes every
    handed record from the store, approved or not, and leaves the other
    ids and the uuid counter as they were. *)
Theorem approval_loop_runs_approved (pqs : list PendingQuery) (answers more : list string)
  (s : state) (acc : list executed_payload)
  (Hlen : length answers = length pqs)
  (Hstaged : Forall (fun pq => pending s !! query_id pq = Some pq) pqs)
  (Hnodup : NoDup (map query_id pqs))
  (Hne : Forall (fun pq => query_id pq <> "" /\ sql pq <> "") pqs) :
  exists s',
    approval_loop snowflake (map asdict pqs) (answers ++ more) s acc =
      (Ok (acc ++ map (executed_entry snowflake) (approved pqs answers))%list, s', more) /\
    executed s' = (executed s ++ approved pqs answers)%list /\
    next_uuid s' = next_uuid s /\
    (forall pq, In pq pqs -> pending s' !! query_id pq = None) /\
    (forall k, ~ In k (map query_id pqs) -> pending s' !! k = pending s !! k).
Proof.
  revert answers s acc Hlen Hstaged Hnodup Hne.
  induction pqs as [|pq pqs IH]; intros answers s acc Hlen Hstaged Hnodup Hne.
  - destruct answers; [|discriminate]. exists s.
    unfold approved. cbn. rewrite !app_nil_r. split_and!; done.
  - destruct answers as [|a answers']; [discriminate|].
    injection Hlen as Hlen.
    apply Forall_cons in Hstaged as [Hpq Hstaged].
    cbn [map] in Hnodup. apply NoDup_cons in Hnodup as [Hnotin Hnodup].
    rewrite list_elem_of_In in Hnotin.
    apply Forall_cons in Hne as [[Hid Hsql] Hne].
    assert (Hne_id : forall pq', In pq' pqs -> query_id pq' <> query_id pq).
    { intros pq' Hin Heq. apply Hnotin. rewrite <- Heq. apply in_map. done. }
    (* the store after the head record left it *)
    set (s1 := {| pending := delete (query_id pq) (pending s); next_uuid := next_uuid s;
                  executed := (executed s ++ if approves a then [pq] else [])%list |}).
    assert (Hstaged1 : Forall (fun pq' => pending s1 !! query_id pq' = Some pq') pqs).
    { apply List.Forall_forall. intros pq' Hin. cbn [s1 pending].
      rewrite lookup_delete_ne by (intros Heq; apply (Hne_id pq' Hin); done).
      rewrite List.Forall_forall in Hstaged. apply Hstaged. done. }
    destruct (IH answers' s1
                (acc ++ if approves a then [executed_entry snowflake pq] else [])%list
                Hlen Hstaged1 Hnodup Hne)
      as [s' [Hrun [Hexec [Huuid [Hgone Hkeep]]]]].
    exists s'.
    assert (Hstep : approval_loop snowflake (map asdict (pq :: pqs)) ((a :: answers') ++ more) s acc =
                    approval_loop snowflake (map asdict pqs) (answers' ++ more) s1
                      (acc ++ if approves a then [executed_entry snowflake pq] else [])%list).
    { cbn [map app]. rewrite approval_loop_asdict by done.
      destruct (approves a).
      - rewrite execute_approved_str, Hpq. reflexivity.
      - rewrite cancel_query_str. unfold s1. rewrite !app_nil_r. reflexivity. }
    rewrite Hstep, Hrun, approved_cons, map_app, <- app_assoc.
    assert (Hentry : map (executed_entry snowflake) (if approves a then [pq] else []) =
                     (if approves a then [executed_entry snowflake pq] else [])).
    { destruct (approves a); reflexivity. }
    rewrite Hentry. split_and!.
    + reflexivity.
    + rewrite Hexec. cbn [s1 executed]. rewrite <- app_assoc. reflexivity.
    + rewrite Huuid. reflexivity.
    + intros pq' [<-|Hin]; [|apply Hgone; done].
      rewrite Hkeep by done. cbn [s1 pending]. apply lookup_delete_eq.
    + intros k Hk. rewrite Hkeep by (intros Hin; apply Hk; right; done).
      cbn [s1 pending]. apply lookup_delete_ne. intros Heq. apply Hk. left. done.
Qed.

End Loop.

(** X18: when a new prompt arrives, the web front end cancels the queries
    still awaiting approval: afterwards no listed [query_id] (a string
    under the key "query_id" of a listed dict) is in the store, every
    other id keeps its record, no uuid is drawn and no statement is run.
    An entry that raises (no "query_id" key, not a dict, an unhashable
    id) is skipped without stopping the loop. *)
Theorem app_cancels_previous_queries (pqs : list json) (s : state) :
  let s' := cancel_previous pqs s in
  (forall k, In k (listed_ids pqs) -> pending s' !! k = None) /\
  (forall k, ~ In k (listed_ids pqs) -> pending s' !! k = pending s !! k) /\
  next_uuid s' = next_uuid s /\ executed s' = executed s.
Proof.
  cbn zeta. revert s. induction pqs as [|pq pqs IH]; intros s; cbn [cancel_previous].
  - split_and!; [intros ? []|done|done|done].
  - rewrite listed_ids_cons.
    set (s1 := match pq with
               | JObj d => match dict_get d "query_id" with
                           | Some v => match cancel_query v s with
                                       | (Ok _, s2) => s2 | (Raise _, s2) => s2 end
                           | None => s end
               | _ => s end).
    assert (Hs1 : (forall k, In k (listed_ids [pq]) -> pending s1 !! k = None) /\
                  (forall k, ~ In k (listed_ids [pq]) -> pending s1 !! k = pending s !! k) /\
                  next_uuid s1 = next_uuid s /\ executed s1 = executed s).
    { unfold s1, listed_ids. cbn [flat_map].
      destruct pq as [| | | | |d]; cbn [app]; try (split_and!; [intros ? []|done|done|done]).
      destruct (dict_get d "query_id") as [v|]; cbn [app];
        [|split_and!; [intros ? []|done|done|done]].
      rewrite app_nil_r.
      destruct v as [| | |k| |]; cbn [key_ids];
        try (cbn; split_and!; [intros ? []|done|done|done]).
      rewrite cancel_query_str. cbn [pending next_uuid executed].
      split_and!; [|intros k' Hk'; apply lookup_delete_ne; intros ->; apply Hk'; left; done
                  |done|done].
      intros k' [<-|[]]. apply lookup_delete_eq. }
    destruct Hs1 as [A1 [B1 [C1 D1]]].
    destruct (IH s1) as [A2 [B2 [C2 D2]]].
    split_and!; [|intros k Hk; rewrite B2, B1; [done| |]; intros Hin; apply Hk, in_app_iff; tauto
                |congruence|congruence].
    intros k Hk. apply in_app_iff in Hk as [Hk|Hk]; [|apply A2; done].
    destruct (in_dec String.string_dec k (listed_ids pqs)) as [Hin|Hout]; [apply A2; done|].
    rewrite B2 by done. apply A1. done.
Qed.

End FrontFacts.

(* ------------------------------------------------------------------ *)
(* The theorems at concrete inputs                                     *)
(* ------------------------------------------------------------------ *)

Module Witnesses.
Import WarehouseTools Chatbot StoreProofs ChatProofs.

Lemma at_most_once_execution_witness :
  (forall i j : nat, pretty i = pretty j -> i = j) /\
  let s1 := snd (run (fun n : nat => pretty n) (fun _ => 0%Q) (fun _ => NoRows)
                   (fun _ => "{}") "DB" "SC"
                   [Invoke (QueryNewsEvents (Some "BTC") 20); Approve "0"] initial_state) in
  (exec_count "0" s1 <= 1)%nat /\
  (consumed (fun n : nat => pretty n) s1 "0" ->
     exec_count "0" (snd (run (fun n : nat => pretty n) (fun _ => 0%Q) (fun _ => NoRows)
                          (fun _ => "{}") "DB" "SC" [Approve "0"; Cancel "0"] s1)) =
       exec_count "0" s1 /\
     Forall2 (fun o r => (o = Approve "0" -> r = RExec no_pending_msg) /\
                         (o = Cancel "0" -> r = RCancel false))
       [Approve "0"; Cancel "0"]
       (fst (run (fun n : nat => pretty n) (fun _ => 0%Q) (fun _ => NoRows)
               (fun _ => "{}") "DB" "SC" [Approve "0"; Cancel "0"] s1))).
Proof.
  split; [exact pretty_nat_inj|].
  exact (at_most_once_execution (fun n : nat => pretty n) (fun _ => 0%Q) (fun _ => NoRows)
           (fun _ => "{}") "DB" "SC" pretty_nat_inj
           [Invoke (QueryNewsEvents (Some "BTC") 20); Approve "0"]
           [Approve "0"; Cancel "0"] "0").
Defined.

Lemma warehouse_tool_stages_witness :
  call_sql "DB" "SC" (QueryNewsEvents (Some "BTC") 20) =
    Some (query_news_events_sql "DB" "SC" (Some "BTC") 20) /\
  let (pq, s') := _register_pending_query (fun n : nat => pretty n) (fun _ => 0%Q)
                    "query_news_events" (query_news_events_sql "DB" "SC" (Some "BTC") 20)
                    initial_state in
  warehouse_tool (fun n : nat => pretty n) (fun _ => 0%Q) (fun _ => "{}") "DB" "SC"
    (QueryNewsEvents (Some "BTC") 20) initial_state = (_pending_response (fun _ => "{}") pq, s') /\
  pending s' !! query_id pq = Some pq /\
  query_id pq = pretty (next_uuid initial_state) /\
  tool_name pq = "query_news_events" /\
  sql pq = strip (query_news_events_sql "DB" "SC" (Some "BTC") 20) /\
  executed s' = executed initial_state.
Proof.
  split; [reflexivity|].
  apply (warehouse_tool_stages (fun n : nat => pretty n) (fun _ => 0%Q) (fun _ => "{}")
           "DB" "SC" (QueryNewsEvents (Some "BTC") 20) initial_state).
  reflexivity.
Defined.

Lemma cancel_twice_then_execute_witness :
  let s := snd (_register_pending_query (fun n : nat => pretty n) (fun _ => 0%Q)
                  "query_news_events" "SELECT 1" initial_state) in
  is_Some (pending s !! "0") /\
  fst (cancel_pending_query "0" s) = true /\
  fst (cancel_pending_query "0" (snd (cancel_pending_query "0" s))) = false /\
  fst (execute_pending_query (fun _ => NoRows) "0" (snd (cancel_pending_query "0" s))) =
    no_pending_msg /\
  executed (snd (execute_pending_query (fun _ => NoRows) "0"
                   (snd (cancel_pending_query "0" s)))) = executed s.
Proof.
  cbn zeta. split; [eexists; reflexivity|].
  apply (cancel_twice_then_execute (fun _ => NoRows)).
  eexists; reflexivity.
Defined.

Lemma summary_invalid_group_by_witness :
  ~ In "price" valid_groups /\
  query_transaction_summary (fun n : nat => pretty n) (fun _ => 0%Q) (fun _ => "{}") "DB" "SC"
    "price" 20 initial_state =
  ("Invalid group_by. Must be one of: asset_symbol, customer_tier, country, transaction_type",
   initial_state).
Proof.
  assert (H : ~ In "price" valid_groups).
  { cbv. intros H. repeat (destruct H as [H|H]; [discriminate H|]). exact H. }
  split; [exact H|].
  apply summary_invalid_group_by. exact H.
Defined.

Lemma pending_payload_shape_witness :
  let pq := {| query_id := "0"; tool_name := "query_news_events"; sql := "SELECT 1";
               created_at := 0%Q |} in
  let loads := fun t => if String.eqb t "payload" then Some (pending_payload pq) else None in
  loads (_pending_response (fun _ => "payload") pq) = Some (pending_payload pq) /\
  (exists q,
     pending_payload pq = JObj [("status", JStr "PENDING_APPROVAL"); ("query", q)] /\
     _try_parse_pending_query_payload loads (_pending_response (fun _ => "payload") pq) = Some q /\
     q = JObj [("query_id", JStr (query_id pq)); ("tool_name", JStr (tool_name pq));
               ("sql", JStr (sql pq)); ("created_at", JNum (created_at pq))] /\
     json_keys q = ["query_id"; "tool_name"; "sql"; "created_at"]) /\
  (forall (payload : string) (v : json),
     _try_parse_pending_query_payload loads payload = Some v <->
     exists d q, loads payload = Some (JObj d) /\
                 dict_get d "status" = Some (JStr "PENDING_APPROVAL") /\
                 dict_get d "query" = Some (JObj q) /\ v = JObj q).
Proof.
  cbn zeta. split; [reflexivity|].
  apply pending_payload_shape. reflexivity.
Defined.

Lemma chat_method_follows_detection_witness :
  let pq := {| query_id := "0"; tool_name := "query_news_events"; sql := "SELECT 1";
               created_at := 0%Q |} in
  let loads := fun t => if String.eqb t "payload" then Some (pending_payload pq) else None in
  let msgs := [HumanMessage "news on BTC?";
               AIMessage "" [{| tc_name := "query_news_events"; tc_args := JObj [];
                                tc_id := "call_1" |}];
               ToolMessage "payload" "query_news_events" "call_1";
               AIMessage "This query needs your approval." []] in
  let r := chat loads (fun _ => "") "news on BTC?" (Ok []) (fun _ => Ok msgs) in
  let found := detected_payloads loads (messages_this_turn (messages_before (Ok [])) msgs) in
  found = [asdict pq] /\
  match found with
  | [] => method r = "agent_with_tools"
  | _ :: _ => method r = "pending_approval" /\ t_pending_queries r = Some found
  end.
Proof.
  cbn zeta. split; [reflexivity|].
  eapply chat_method_follows_detection; reflexivity.
Defined.

Lemma chat_scans_from_pre_turn_count_witness :
  let prior := [HumanMessage "q0"; AIMessage "" [{| tc_name := "query_news_events";
                                                     tc_args := JObj []; tc_id := "c0" |}];
                ToolMessage "x" "query_news_events" "c0"; AIMessage "a0" []] in
  let result := (prior ++ [HumanMessage "q1"; AIMessage "a1" []])%list in
  warehouse_tools_used (scan (fun _ => None) (fun _ => "") (drop (length prior) result)) = [] /\
  warehouse_tools_used (scan (fun _ => None) (fun _ => "") result) = ["query_news_events"] /\
  (let r := chat (fun _ => None) (fun _ => "") "q1" (Ok prior) (fun _ => Ok result) in
   let a := scan (fun _ => None) (fun _ => "") (drop (length prior) result) in
   t_sources r = sources a /\
   t_warehouse_tools_used r = warehouse_tools_used a /\
   t_rag_tools_used r = rag_tools_used a /\
   (t_pending_queries r = Some (pending_queries a) \/
    (t_pending_queries r = None /\ pending_queries a = []))) /\
  (forall m : string,
   let r := chat (fun _ => None) (fun _ => "") "q1" (Raise m) (fun _ => Ok result) in
   let a := scan (fun _ => None) (fun _ => "") result in
   t_sources r = sources a /\
   t_warehouse_tools_used r = warehouse_tools_used a /\
   t_rag_tools_used r = rag_tools_used a /\
   (t_pending_queries r = Some (pending_queries a) \/
    (t_pending_queries r = None /\ pending_queries a = []))).
Proof.
  cbn zeta. split; [reflexivity|]. split; [reflexivity|].
  eapply chat_scans_from_pre_turn_count; reflexivity.
Defined.

Lemma document_search_sources_witness :
  let doc := JObj [("page_content", JStr "Bitcoin is a decentralised digital currency.");
                   ("metadata", JObj [("source", JStr "btc.pdf")])] in
  let loads := fun t => if String.eqb t "docs" then Some (JArr [doc; doc; doc; doc])
                        else None in
  let srcs := document_sources loads (fun _ => "") "docs" in
  length srcs = 3%nat /\
  sources (scan_message loads (fun _ => "") empty_acc (ToolMessage "docs" "document_search" "c1")) =
    (sources empty_acc ++ srcs)%list /\
  (length srcs <= 3)%nat /\
  (forall x, In x srcs -> exists docs doc c,
      loads "docs" = Some (JArr docs) /\ In doc (take 3 docs) /\
      doc_source (fun _ => "") doc = Ok (Some x) /\
      src_content x = slice_to 200 c ++ "..." /\
      (String.length (slice_to 200 c) <= 200)%nat) /\
  (loads "docs" = None -> srcs = []) /\
  (forall v, loads "docs" = Some v -> (forall docs, v <> JArr docs) -> srcs = []).
Proof.
  cbn zeta. split; [reflexivity|].
  apply document_search_sources.
Defined.

Lemma chat_error_result_witness :
  chat (fun _ => None) (fun _ => "") "q" (Ok []) (fun _ => Raise "LLM timeout") =
    {| answer := "I encountered an error: " ++ "LLM timeout" ++
                 ". Please try rephrasing your question.";
       t_sources := []; t_warehouse_tools_used := []; t_rag_tools_used := [];
       t_pending_queries := None; method := "error" |} /\
  (forall m, chat (fun _ => None) (fun _ => "") "q" (Raise m) (fun _ => Raise "LLM timeout") =
             chat (fun _ => None) (fun _ => "") "q" (Ok []) (fun _ => Raise "LLM timeout")).
Proof.
  apply chat_error_result. left. reflexivity.
Defined.

Lemma tools_node_answers_every_call_witness :
  let tbn := fun n => if String.eqb n "query_news_events"
                      then Some (fun (_ : json) (s : unit) => (@Raise string "boom", s))
                      else None in
  let calls := [{| tc_name := "query_news_events"; tc_args := JObj []; tc_id := "c1" |};
                {| tc_name := "no_such_tool"; tc_args := JObj []; tc_id := "c2" |}] in
  let msgs := [HumanMessage "q"; AIMessage "" calls] in
  let outs := fst (tools_node unit tbn msgs tt) in
  outs = [ToolMessage "Error: boom" "query_news_events" "c1";
          ToolMessage "Tool no_such_tool not found" "no_such_tool" "c2"] /\
  Forall2 (fun tc out => exists c,
      out = ToolMessage c (tc_name tc) (tc_id tc) /\
      (tbn (tc_name tc) = None -> c = "Tool " ++ tc_name tc ++ " not found") /\
      (forall tool, tbn (tc_name tc) = Some tool -> exists si si',
         tool (tc_args tc) si = (Ok c, si') \/
         exists e, tool (tc_args tc) si = (Raise e, si') /\ c = "Error: " ++ e))
    calls outs /\
  next_node NTools (msgs ++ outs)%list = NChatbot.
Proof.
  intros tbn calls msgs outs. split; [reflexivity|].
  exact (tools_node_answers_every_call unit tbn msgs "" calls tt eq_refl).
Defined.

End Witnesses.

(* ------------------------------------------------------------------ *)
(* The further properties at concrete inputs                          *)
(* ------------------------------------------------------------------ *)

Module ExtraWitnesses.
Import WarehouseTools Chatbot Frontends Views StoreFacts TurnFacts FrontFacts.

Lemma store_holds_only_tool_records_witness :
  let pq := {| query_id := "0"; tool_name := "query_news_events";
               sql := strip (query_news_events_sql "DB" "SC" (Some "BTC") 20);
               created_at := 0%Q |} in
  pending (snd (run (fun n : nat => pretty n) (fun _ => 0%Q) (fun _ => NoRows) (fun _ => "{}")
                  "DB" "SC" [Invoke (QueryNewsEvents (Some "BTC") 20)] initial_state)) !! "0"
    = Some pq /\
  query_id pq = "0" /\ In (tool_name pq) WAREHOUSE_TOOL_NAMES /\
  exists c sql0, call_sql "DB" "SC" c = Some sql0 /\ tool_name pq = call_tool_name c /\
                 sql pq = strip sql0.
Proof.
  cbn zeta.
  assert (H : pending (snd (run (fun n : nat => pretty n) (fun _ => 0%Q) (fun _ => NoRows)
                 (fun _ => "{}") "DB" "SC" [Invoke (QueryNewsEvents (Some "BTC") 20)]
                 initial_state)) !! "0" =
              Some {| query_id := "0"; tool_name := "query_news_events";
                      sql := strip (query_news_events_sql "DB" "SC" (Some "BTC") 20);
                      created_at := 0%Q |}).
  { vm_compute. reflexivity. }
  split; [exact H|].
  exact (store_holds_only_tool_records (fun n : nat => pretty n) (fun _ => 0%Q) (fun _ => NoRows)
           (fun _ => "{}") "DB" "SC" [Invoke (QueryNewsEvents (Some "BTC") 20)] "0" _ H).
Defined.

Lemma only_approvals_execute_witness :
  Forall (fun o => forall q, o <> Approve q)
    [Invoke (QueryNewsEvents (Some "BTC") 20); Cancel "0"] /\
  executed (snd (run (fun n : nat => pretty n) (fun _ => 0%Q) (fun _ => NoRows) (fun _ => "{}")
                   "DB" "SC" [Invoke (QueryNewsEvents (Some "BTC") 20); Cancel "0"]
                   initial_state)) = executed initial_state.
Proof.
  assert (H : Forall (fun o => forall q, o <> Approve q)
                [Invoke (QueryNewsEvents (Some "BTC") 20); Cancel "0"]).
  { repeat constructor; intros q Hq; discriminate Hq. }
  split; [exact H|].
  exact (only_approvals_execute (fun n : nat => pretty n) (fun _ => 0%Q) (fun _ => NoRows)
           (fun _ => "{}") "DB" "SC" _ initial_state H).
Defined.

Lemma execute_consumes_record_witness :
  let s := snd (_register_pending_query (fun n : nat => pretty n) (fun _ => 0%Q)
                  "query_news_events" "SELECT 1" initial_state) in
  let pq := {| query_id := "0"; tool_name := "query_news_events"; sql := "SELECT 1";
               created_at := 0%Q |} in
  pending s !! "0" = Some pq /\
  execute_pending_query (fun _ => Rows "[]") "0" s =
    (outcome_text (Rows "[]"),
     {| pending := delete "0" (pending s); next_uuid := next_uuid s;
        executed := executed s ++ [pq] |}) /\
  fst (execute_pending_query (fun _ => Rows "[]") "0"
         (snd (execute_pending_query (fun _ => Rows "[]") "0" s))) = no_pending_msg.
Proof.
  cbn zeta.
  assert (H : pending (snd (_register_pending_query (fun n : nat => pretty n) (fun _ => 0%Q)
                             "query_news_events" "SELECT 1" initial_state)) !! "0" =
              Some {| query_id := "0"; tool_name := "query_news_events"; sql := "SELECT 1";
                      created_at := 0%Q |}).
  { vm_compute. reflexivity. }
  split; [exact H|].
  exact (execute_consumes_record (fun _ => Rows "[]") "0" _ _ H).
Defined.

Lemma unknown_id_changes_nothing_witness :
  let s := snd (_register_pending_query (fun n : nat => pretty n) (fun _ => 0%Q)
                  "query_news_events" "SELECT 1" initial_state) in
  pending s !! "1" = None /\
  execute_pending_query (fun _ => NoRows) "1" s = (no_pending_msg, s) /\
  cancel_pending_query "1" s = (false, s).
Proof.
  cbn zeta.
  assert (H : pending (snd (_register_pending_query (fun n : nat => pretty n) (fun _ => 0%Q)
                             "query_news_events" "SELECT 1" initial_state)) !! "1" = None).
  { vm_compute. reflexivity. }
  split; [exact H|].
  exact (unknown_id_changes_nothing (fun _ => NoRows) "1" _ H).
Defined.

Lemma register_adds_one_record_witness :
  (forall i j : nat, pretty i = pretty j -> i = j) /\
  let s := snd (run (fun n : nat => pretty n) (fun _ => 0%Q) (fun _ => NoRows) (fun _ => "{}")
                  "DB" "SC" [Invoke (QueryNewsEvents (Some "BTC") 20)] initial_state) in
  let (pq, s') := _register_pending_query (fun n : nat => pretty n) (fun _ => 0%Q)
                    "query_price_trends" "SELECT 2" s in
  pending s !! query_id pq = None /\
  size (pending s') = S (size (pending s)) /\
  (forall k, k <> query_id pq -> pending s' !! k = pending s !! k).
Proof.
  split; [exact pretty_nat_inj|].
  exact (register_adds_one_record (fun n : nat => pretty n) (fun _ => 0%Q) (fun _ => NoRows)
           (fun _ => "{}") "DB" "SC" pretty_nat_inj
           [Invoke (QueryNewsEvents (Some "BTC") 20)] "query_price_trends" "SELECT 2").
Defined.

Lemma register_then_cancel_witness :
  (forall i j : nat, pretty i = pretty j -> i = j) /\
  let s := snd (run (fun n : nat => pretty n) (fun _ => 0%Q) (fun _ => NoRows) (fun _ => "{}")
                  "DB" "SC" [Invoke (QueryNewsEvents (Some "BTC") 20)] initial_state) in
  let (pq, s1) := _register_pending_query (fun n : nat => pretty n) (fun _ => 0%Q)
                    "query_price_trends" "SELECT 2" s in
  cancel_pending_query (query_id pq) s1 =
    (true, {| pending := pending s; next_uuid := S (next_uuid s); executed := executed s |}).
Proof.
  split; [exact pretty_nat_inj|].
  exact (register_then_cancel (fun n : nat => pretty n) (fun _ => 0%Q) (fun _ => NoRows)
           (fun _ => "{}") "DB" "SC" pretty_nat_inj
           [Invoke (QueryNewsEvents (Some "BTC") 20)] "query_price_trends" "SELECT 2").
Defined.

Lemma blank_customer_name_witness :
  blank "  " /\
  query_customer_by_name (fun n : nat => pretty n) (fun _ => 0%Q) (fun _ => "{}") "DB" "SC"
    "  " 20 initial_state =
    ("Error preparing customer search query: list index out of range", initial_state) /\
  ("  " <> "" ->
   query_transactions (fun n : nat => pretty n) (fun _ => 0%Q) (fun _ => "{}") "DB" "SC"
     None (Some "  ") None None 20 initial_state =
     ("Error preparing transactions query: list index out of range", initial_state)) /\
  query_transactions (fun n : nat => pretty n) (fun _ => 0%Q) (fun _ => "{}") "DB" "SC"
    None (Some "") None None 20 initial_state =
  query_transactions (fun n : nat => pretty n) (fun _ => 0%Q) (fun _ => "{}") "DB" "SC"
    None None None None 20 initial_state.
Proof.
  assert (H : blank "  ").
  { unfold blank. vm_compute. repeat constructor. }
  split; [exact H|].
  exact (blank_customer_name (fun n : nat => pretty n) (fun _ => 0%Q) (fun _ => "{}") "DB" "SC"
           "  " None None None 20 initial_state H).
Defined.

Lemma negative_days_start_comment_witness :
  (-7 < 0)%Z /\
  (exists pre post, query_asset_prices_sql "DB" "SC" (Some "BTC") None (-7) 10 =
                    pre ++ "DATEADD(day, --" ++ post) /\
  (exists pre post, query_price_trends_sql "DB" "SC" "BTC" (-7) =
                    pre ++ "DATEADD(day, --" ++ post).
Proof.
  split; [lia|].
  apply (negative_days_start_comment "DB" "SC" (Some "BTC") None "BTC" (-7) 10). lia.
Defined.

Lemma document_sources_stop_at_bad_item_witness :
  let docs := [JObj [("page_content", JStr "first")]; JObj [("page_content", JNum 1)];
               JObj [("page_content", JStr "third")]] in
  let loads := fun t : string => if String.eqb t "result" then Some (JArr docs) else None in
  loads "result" = Some (JArr ([JObj [("page_content", JStr "first")]] ++
                               JObj [("page_content", JNum 1)] ::
                               [JObj [("page_content", JStr "third")]])) /\
  (length [JObj [("page_content", JStr "first")]] < 3)%nat /\
  dict_get [("page_content", JNum 1)] "page_content" = Some (JNum 1) /\
  (forall c, JNum 1 <> JStr c) /\
  document_sources loads (fun _ => "") "result" =
    collect_sources (fun _ => "") [JObj [("page_content", JStr "first")]] [].
Proof.
  cbn zeta.
  assert (H1 : (fun t : string => if String.eqb t "result" then
                 Some (JArr [JObj [("page_content", JStr "first")]; JObj [("page_content", JNum 1)];
                             JObj [("page_content", JStr "third")]]) else None) "result" =
               Some (JArr ([JObj [("page_content", JStr "first")]] ++
                           JObj [("page_content", JNum 1)] ::
                           [JObj [("page_content", JStr "third")]]))).
  { reflexivity. }
  assert (H2 : (length [JObj [("page_content", JStr "first")]] < 3)%nat) by (simpl; lia).
  assert (H3 : dict_get [("page_content", JNum 1)] "page_content" = Some (JNum 1)) by reflexivity.
  assert (H4 : forall c, JNum 1 <> JStr c) by (intros c Hc; discriminate Hc).
  split_and!; [exact H1|exact H2|exact H3|exact H4|].
  exact (document_sources_stop_at_bad_item _ (fun _ => "") "result" _ _ _ _ H1 H2 H3 H4).
Defined.

Lemma approval_loop_touches_only_listed_witness :
  let s := snd (_register_pending_query (fun n : nat => pretty n) (fun _ => 0%Q)
                  "query_news_events" "SELECT 1" initial_state) in
  let pqs := [JObj [("query_id", JStr "0"); ("tool_name", JStr "query_news_events");
                    ("sql", JStr "SELECT 1")]; JObj [("query_id", JStr "")]] in
  let res := approval_loop (fun _ => NoRows) pqs ["no"] s [] in
  keyed s /\
  approval_loop (fun _ => NoRows) pqs ["no"] s [] = (fst (fst res), snd (fst res), snd res) /\
  only_at (listed_ids pqs) s (snd (fst res)) /\
  (forall k, pending s !! k = None -> pending (snd (fst res)) !! k = None) /\
  (forall l, fst (fst res) = Ok l ->
   forall d k sq, In (JObj d) pqs ->
   dict_get d "query_id" = Some (JStr k) -> k <> "" ->
   dict_get d "sql" = Some (JStr sq) -> sq <> "" ->
   pending (snd (fst res)) !! k = None).
Proof.
  cbn zeta.
  assert (Hk : keyed (snd (_register_pending_query (fun n : nat => pretty n) (fun _ => 0%Q)
                            "query_news_events" "SELECT 1" initial_state))).
  { intros k pq H. cbn in H. apply lookup_insert_Some in H as [[<- <-]|[_ H]]; [reflexivity|].
    rewrite lookup_empty in H. discriminate H. }
  set (s := snd (_register_pending_query (fun n : nat => pretty n) (fun _ => 0%Q)
                  "query_news_events" "SELECT 1" initial_state)) in *.
  set (pqs := [JObj [("query_id", JStr "0"); ("tool_name", JStr "query_news_events");
                     ("sql", JStr "SELECT 1")]; JObj [("query_id", JStr "")]]).
  assert (Hrun : approval_loop (fun _ => NoRows) pqs ["no"] s [] =
                 (fst (fst (approval_loop (fun _ => NoRows) pqs ["no"] s [])),
                  snd (fst (approval_loop (fun _ => NoRows) pqs ["no"] s [])),
                  snd (approval_loop (fun _ => NoRows) pqs ["no"] s []))).
  { vm_compute. reflexivity. }
  split; [exact Hk|]. split; [exact Hrun|].
  exact (approval_loop_touches_only_listed (fun _ => NoRows) pqs ["no"] s [] _ _ _ Hk Hrun).
Defined.

Lemma approval_loop_runs_approved_witness :
  let s := snd (_register_pending_query (fun n : nat => pretty n) (fun _ => 0%Q)
                  "query_news_events" "SELECT 1" initial_state) in
  let pq := {| query_id := "0"; tool_name := "query_news_events"; sql := "SELECT 1";
               created_at := 0%Q |} in
  length ["yes"] = length [pq] /\
  Forall (fun pq => pending s !! query_id pq = Some pq) [pq] /\
  NoDup (map query_id [pq]) /\
  Forall (fun pq => query_id pq <> "" /\ sql pq <> "") [pq] /\
  exists s',
    approval_loop (fun _ => Rows "[{}]") (map asdict [pq]) (["yes"] ++ ["quit"]) s [] =
      (Ok ([] ++ map (executed_entry (fun _ => Rows "[{}]")) (approved [pq] ["yes"]))%list,
       s', ["quit"]) /\
    executed s' = (executed s ++ approved [pq] ["yes"])%list /\
    next_uuid s' = next_uuid s /\
    (forall pq', In pq' [pq] -> pending s' !! query_id pq' = None) /\
    (forall k, ~ In k (map query_id [pq]) -> pending s' !! k = pending s !! k).
Proof.
  cbn zeta.
  assert (H1 : length ["yes"] = length [{| query_id := "0"; tool_name := "query_news_events";
                                           sql := "SELECT 1"; created_at := 0%Q |}])
    by reflexivity.
  assert (H2 : Forall (fun pq => pending (snd (_register_pending_query (fun n : nat => pretty n)
                  (fun _ => 0%Q) "query_news_events" "SELECT 1" initial_state)) !! query_id pq
                  = Some pq)
                 [{| query_id := "0"; tool_name := "query_news_events"; sql := "SELECT 1";
                     created_at := 0%Q |}]).
  { constructor; [vm_compute; reflexivity|constructor]. }
  assert (H3 : NoDup (map query_id [{| query_id := "0"; tool_name := "query_news_events";
                                       sql := "SELECT 1"; created_at := 0%Q |}])).
  { apply NoDup_singleton. }
  assert (H4 : Forall (fun pq => query_id pq <> "" /\ sql pq <> "")
                 [{| query_id := "0"; tool_name := "query_news_events"; sql := "SELECT 1";
                     created_at := 0%Q |}]).
  { constructor; [split; cbn; intros Hc; discriminate Hc|constructor]. }
  split_and!; [exact H1|exact H2|exact H3|exact H4|].
  exact (approval_loop_runs_approved (fun _ => Rows "[{}]") _ ["yes"] ["quit"] _ [] H1 H2 H3 H4).
Defined.

End ExtraWitnesses.

(* ------------------------------------------------------------------ *)
(* Counterexamples                                                     *)
(* ------------------------------------------------------------------ *)

Module Counterexamples.
Import WarehouseTools Chatbot.

(** Claim C3: the "query" object of the payload has a fourth field,
    created_at, so it does not consist of exactly query_id, tool_name and
    sql. *)
Lemma pending_payload_query_has_created_at :
  let pq := {| query_id := "0"; tool_name := "query_news_events"; sql := "SELECT 1";
               created_at := 0%Q |} in
  (match pending_payload pq with
   | JObj d => option_map json_keys (dict_get d "query")
   | _ => None
   end) = Some ["query_id"; "tool_name"; "sql"; "created_at"] /\
  (match pending_payload pq with
   | JObj d => option_map json_keys (dict_get d "query")
   | _ => None
   end) <> Some ["query_id"; "tool_name"; "sql"].
Proof. split; [reflexivity|discriminate]. Qed.

(** Claim C6: when the pre-turn state read raises, [messages_before] falls
    back to 0 and the warehouse tool called in an earlier turn is reported
    again, although nothing from index [length prior] on used it. *)
Lemma chat_state_read_failure_rescans_history :
  let prior := [HumanMessage "show John Doe's transactions";
                AIMessage "" [{| tc_name := "query_transactions"; tc_args := JObj [];
                                 tc_id := "call_1" |}];
                ToolMessage "prepared" "query_transactions" "call_1";
                AIMessage "That query needs approval." []] in
  let result := (prior ++ [HumanMessage "what is BTC?";
                           AIMessage "Bitcoin is a crypto asset." []])%list in
  let r := chat (fun _ => None) (fun _ => "") "what is BTC?" (Raise "connection reset")
                (fun _ => Ok result) in
  t_warehouse_tools_used r = ["query_transactions"] /\
  t_warehouse_tools_used r <>
    warehouse_tools_used (scan (fun _ => None) (fun _ => "") (drop (length prior) result)).
Proof. split; [reflexivity|cbv; discriminate]. Qed.

(** Claim C8: the error result has no "pending_queries" entry at all, and an
    exception from the pre-turn state read does not make the turn an
    error. *)
Lemma chat_error_cases :
  t_pending_queries (chat (fun _ => None) (fun _ => "") "q" (Ok [])
                          (fun _ => Raise "LLM timeout")) <> Some [] /\
  method (chat (fun _ => None) (fun _ => "") "q" (Raise "checkpointer unavailable")
               (fun _ => Ok [HumanMessage "q"; AIMessage "hello" []])) = "agent_with_tools".
Proof. split; [cbv; discriminate|reflexivity]. Qed.

End Counterexamples.
